(** * Settings loader: [python/semantic_kernel/utils/settings.py]

    A shallow embedding of the per-service accessors that read credentials
    from the [.env] file, and the properties of their contract.

    Modelling conventions.
    - A Python [str] is a [string]; a character is a code point below 256.
    - [dotenv_values(".env")] belongs to the python-dotenv package; its result,
      a [Dict[str, Optional[str]]], is an input of the model ([gmap]).
    - [f.readlines()] on [.env] is an input of the model too: the list of the
      lines of the file, each one with its line terminator.
    - An accessor returns a Python value or raises; [assert] statements are
      enforced (the interpreter does not run with [-O]). *)

From Stdlib Require Import Ascii String List Bool NArith.
From stdpp Require Import gmap strings pretty.

(** ** Python string methods used by the module *)

Module Str.

Definition dquote : ascii := ascii_of_byte Byte.x22.
Definition newline : ascii := ascii_of_byte Byte.x0a.
Definition equals : ascii := ascii_of_byte Byte.x3d.

(** [str.isspace] on one character: TAB..CR, FS..US, SPACE, NEL, NBSP. *)
Definition isspace (c : ascii) : bool :=
  let n := N_of_ascii c in
  ((9 <=? n) && (n <=? 13) || (28 <=? n) && (n <=? 32)
   || (n =? 133) || (n =? 160))%N.

(** [s.startswith(prefix)] *)
Fixpoint startswith (s prefix : string) {struct prefix} : bool :=
  match prefix with
  | EmptyString => true
  | String p prefix' =>
      match s with
      | EmptyString => false
      | String c s' => Ascii.eqb c p && startswith s' prefix'
      end
  end.

(** [s.split(sep)] for a separator of one character. *)
Fixpoint split (s : string) (sep : ascii) : list string :=
  match s with
  | EmptyString => [EmptyString]
  | String c s' =>
      if Ascii.eqb c sep then EmptyString :: split s' sep
      else match split s' sep with
           | [] => [String c EmptyString]
           | w :: ws => String c w :: ws
           end
  end.

(** [sep.join(parts)] *)
Definition join (sep : string) (parts : list string) : string :=
  String.concat sep parts.

(** Removal of the leading, resp. trailing, characters that satisfy [p]. *)
Fixpoint lstrip_by (p : ascii → bool) (s : string) : string :=
  match s with
  | EmptyString => EmptyString
  | String c s' => if p c then lstrip_by p s' else s
  end.

Fixpoint rstrip_by (p : ascii → bool) (s : string) : string :=
  match s with
  | EmptyString => EmptyString
  | String c s' =>
      match rstrip_by p s' with
      | EmptyString => if p c then EmptyString else String c EmptyString
      | r => String c r
      end
  end.

Definition strip_by (p : ascii → bool) (s : string) : string :=
  rstrip_by p (lstrip_by p s).

(** [c in chars] *)
Fixpoint mem (c : ascii) (chars : string) : bool :=
  match chars with
  | EmptyString => false
  | String d chars' => Ascii.eqb c d || mem c chars'
  end.

(** [s.strip()] and [s.strip(chars)] *)
Definition strip (s : string) : string := strip_by isspace s.
Definition strip_chars (s chars : string) : string :=
  strip_by (λ c, mem c chars) s.

End Str.

(** ** Python values and exceptions *)

#[warnings="-register-all"] Inductive value : Type :=
  | VNone
  | VStr (s : string)
  | VTuple (items : list value)
  | VDict (entries : list (string * value)).

Inductive exn : Type :=
  | AssertionError (msg : string)
  | ValueError (msg : string)
  | TypeError (msg : string).

Inductive result (A : Type) : Type :=
  | Ok (a : A)
  | Raise (e : exn).
Arguments Ok {A} a.
Arguments Raise {A} e.

#[global] Instance result_ret : MRet result := λ A a, Ok a.
#[global] Instance result_bind : MBind result := λ A B k r,
  match r with
  | Ok a => k a
  | Raise e => Raise e
  end.

(** [assert cond, msg] *)
Definition assert_ (cond : bool) (msg : string) : result unit :=
  if cond then Ok () else Raise (AssertionError msg).

(** Truth value of an [Optional[str]]: [None] and the empty string are false. *)
Definition truthy (x : option string) : bool :=
  match x with
  | Some (String _ _) => true
  | _ => false
  end.

(** [x is not None] *)
Definition is_not_None (x : option string) : bool :=
  match x with
  | Some _ => true
  | None => false
  end.

(** [x or d] where [x : Optional[str]] *)
Definition or_ (x : option string) (d : string) : string :=
  match x with
  | Some (String c s) => String c s
  | _ => d
  end.

Definition of_opt (x : option string) : value :=
  match x with
  | Some s => VStr s
  | None => VNone
  end.

(** [config.get(key, None)]; python-dotenv maps a key that is bound without a
    value to [None]. *)
Definition get (config : gmap string (option string)) (key : string)
  : option string :=
  match config !! key with
  | Some v => v
  | None => None
  end.

(** [d[k] = v] on a dict kept in insertion order. *)
Fixpoint dict_set (d : list (string * value)) (k : string) (v : value)
  : list (string * value) :=
  match d with
  | [] => [(k, v)]
  | (k', v') :: d' =>
      if String.eqb k' k then (k', v) :: d' else (k', v') :: dict_set d' k v
  end.

(** The sequence a value yields when it is iterated by an unpacking
    assignment. *)
Definition iterate (v : value) : result (list value) :=
  match v with
  | VNone => Raise (TypeError "cannot unpack non-iterable NoneType object")
  | VStr s => Ok (map (λ c, VStr (String c EmptyString)) (list_ascii_of_string s))
  | VTuple items => Ok items
  | VDict entries => Ok (map (λ e, VStr (fst e)) entries)
  end.

(** [(x1, ..., xn) = v] *)
Definition unpack (n : nat) (v : value) : result (list value) :=
  items ← iterate v;
  let got := length items in
  if (got <? n)%nat then
    Raise (ValueError ("not enough values to unpack (expected " +:+ pretty n
                       +:+ ", got " +:+ pretty got +:+ ")"))
  else if (n <? got)%nat then
    Raise (ValueError ("too many values to unpack (expected " +:+ pretty n +:+ ")"))
  else Ok items.

(** ** The accessors

    Each accessor takes what it reads from [.env] as its first argument: the
    mapping of [dotenv_values(".env")], or the lines of [f.readlines()]. *)

Definition openai_settings_from_dot_env
    (config : gmap string (option string)) : result value :=
  let api_key := get config "OPENAI_API_KEY" in
  let org_id := get config "OPENAI_ORG_ID" in
  _ ← assert_ (truthy api_key) "OpenAI API key not found in .env file";
  Ok (VTuple [of_opt api_key; of_opt org_id]).

Definition azure_openai_settings_from_dot_env
    (config : gmap string (option string))
    (include_deployment include_api_version : bool) : result value :=
  let deployment := get config "AZURE_OPENAI_DEPLOYMENT_NAME" in
  let api_key := get config "AZURE_OPENAI_API_KEY" in
  let endpoint := get config "AZURE_OPENAI_ENDPOINT" in
  let api_version := get config "AZURE_OPENAI_API_VERSION" in
  _ ← (if include_deployment
       then assert_ (is_not_None deployment)
              "Azure OpenAI deployment name not found in .env file"
       else Ok ());
  _ ← (if include_api_version
       then assert_ (is_not_None api_version)
              "Azure OpenAI API version not found in .env file"
       else Ok ());
  _ ← assert_ (truthy api_key) "Azure OpenAI API key not found in .env file";
  _ ← assert_ (truthy endpoint) "Azure OpenAI endpoint not found in .env file";
  if include_api_version
  then Ok (VTuple [VStr (or_ deployment ""); of_opt api_key; of_opt endpoint;
                   VStr (or_ api_version "")])
  else Ok (VTuple [VStr (or_ deployment ""); of_opt api_key; of_opt endpoint]).

Definition azure_openai_settings_from_dot_env_as_dict
    (config : gmap string (option string))
    (include_deployment include_api_version : bool) : result value :=
  t ← azure_openai_settings_from_dot_env config include_deployment
        include_api_version;
  items ← unpack 4 t;
  match items with
  | [deployment_name; api_key; endpoint; api_version] =>
      let ret := [("api_key", api_key); ("endpoint", endpoint)] in
      let ret := if include_deployment
                 then dict_set ret "deployment_name" deployment_name else ret in
      let ret := if include_api_version
                 then dict_set ret "api_version" api_version else ret in
      Ok (VDict ret)
  | _ => Raise (ValueError "unpack")
  end.

Definition postgres_settings_from_dot_env
    (config : gmap string (option string)) : result value :=
  let connection_string := get config "POSTGRES_CONNECTION_STRING" in
  _ ← assert_ (truthy connection_string)
        "Postgres connection string not found in .env file";
  Ok (of_opt connection_string).

(** The expression both line scanners apply to a matching line: the parts of
    [line.split("=")] after the first one, joined again with ["="], then
    [.strip()], then [.strip(chars)] where [chars] is the double quote. *)
Definition line_value (line : string) : string :=
  Str.strip_chars
    (Str.strip (Str.join "=" (drop 1 (Str.split line Str.equals))))
    (String Str.dquote EmptyString).

(** One iteration of the [for line in lines] loop of the Pinecone accessor,
    on the pair of local variables [(api_key, environment)]. *)
Definition pinecone_step (vars : option string * option string) (line : string)
  : option string * option string :=
  let '(api_key, environment) := vars in
  if Str.startswith line "PINECONE_API_KEY"
  then (Some (line_value line), environment)
  else if Str.startswith line "PINECONE_ENVIRONMENT"
  then (api_key, Some (line_value line))
  else (api_key, environment).

Definition pinecone_settings_from_dot_env (lines : list string) : result value :=
  let '(api_key, environment) := fold_left pinecone_step lines (None, None) in
  _ ← assert_ (truthy api_key) "Pinecone API key not found in .env file";
  _ ← assert_ (truthy environment) "Pinecone environment not found in .env file";
  Ok (VTuple [of_opt api_key; of_opt environment]).

(** One iteration of the loop of the AstraDB accessor, on
    [(app_token, db_id, region, keyspace)]. *)
Definition astradb_step
    (vars : option string * option string * option string * option string)
    (line : string)
  : option string * option string * option string * option string :=
  let '(app_token, db_id, region, keyspace) := vars in
  if Str.startswith line "ASTRADB_APP_TOKEN"
  then (Some (line_value line), db_id, region, keyspace)
  else if Str.startswith line "ASTRADB_ID"
  then (app_token, Some (line_value line), region, keyspace)
  else if Str.startswith line "ASTRADB_REGION"
  then (app_token, db_id, Some (line_value line), keyspace)
  else if Str.startswith line "ASTRADB_KEYSPACE"
  then (app_token, db_id, region, Some (line_value line))
  else (app_token, db_id, region, keyspace).

Definition astradb_settings_from_dot_env (lines : list string) : result value :=
  let '(app_token, db_id, region, keyspace) :=
    fold_left astradb_step lines (None, None, None, None) in
  _ ← assert_ (truthy app_token) "Astradb Application token not found in .env file";
  _ ← assert_ (truthy db_id) "Astradb ID not found in .env file";
  _ ← assert_ (truthy region) "Astradb Region not found in .env file";
  _ ← assert_ (truthy keyspace) "Astradb Keyspace name not found in .env file";
  Ok (VTuple [of_opt app_token; of_opt db_id; of_opt region; of_opt keyspace]).

Definition weaviate_settings_from_dot_env
    (config : gmap string (option string)) : result value :=
  let api_key := get config "WEAVIATE_API_KEY" in
  let url := get config "WEAVIATE_URL" in
  _ ← assert_ (is_not_None url) "Weaviate instance URL not found in .env file";
  Ok (VTuple [of_opt api_key; of_opt url]).

Definition bing_search_settings_from_dot_env
    (config : gmap string (option string)) : result value :=
  let api_key := get config "BING_API_KEY" in
  _ ← assert_ (is_not_None api_key) "Bing Search API key not found in .env file";
  Ok (of_opt api_key).

Definition mongodb_atlas_settings_from_dot_env
    (config : gmap string (option string)) : result value :=
  let uri := get config "MONGODB_ATLAS_CONNECTION_STRING" in
  _ ← assert_ (is_not_None uri) "MongoDB Connection String not found in .env file";
  Ok (of_opt uri).

Definition google_palm_settings_from_dot_env
    (config : gmap string (option string)) : result value :=
  let api_key := get config "GOOGLE_PALM_API_KEY" in
  _ ← assert_ (is_not_None api_key) "Google PaLM API key not found in .env file";
  Ok (of_opt api_key).

Definition azure_cosmos_db_settings_from_dot_env
    (config : gmap string (option string)) : result value :=
  let cosmos_api := get config "AZCOSMOS_API" in
  let cosmos_connstr := get config "AZCOSMOS_CONNSTR" in
  _ ← assert_ (is_not_None cosmos_connstr)
        "Azure Cosmos Connection String not found in .env file";
  Ok (VTuple [of_opt cosmos_api; of_opt cosmos_connstr]).

Definition redis_settings_from_dot_env
    (config : gmap string (option string)) : result value :=
  let connection_string := get config "REDIS_CONNECTION_STRING" in
  _ ← assert_ (is_not_None connection_string)
        "Redis connection string not found in .env file";
  Ok (of_opt connection_string).

Definition azure_aisearch_settings_from_dot_env
    (config : gmap string (option string)) (include_index_name : bool)
  : result value :=
  let api_key := get config "AZURE_AISEARCH_API_KEY" in
  let url := get config "AZURE_AISEARCH_URL" in
  _ ← assert_ (is_not_None url) "Azure AI Search URL not found in .env file";
  _ ← assert_ (is_not_None api_key) "Azure AI Search API key not found in .env file";
  if negb include_index_name
  then Ok (VTuple [of_opt api_key; of_opt url])
  else
    let index_name := get config "AZURE_AISEARCH_INDEX_NAME" in
    _ ← assert_ (is_not_None index_name)
          "Azure AI Search index name not found in .env file";
    Ok (VTuple [of_opt api_key; of_opt url; of_opt index_name]).

Definition azure_aisearch_settings_from_dot_env_as_dict
    (config : gmap string (option string)) : result value :=
  t ← azure_aisearch_settings_from_dot_env config true;
  items ← unpack 3 t;
  match items with
  | [api_key; url; index_name] =>
      Ok (VDict [("authentication", VDict [("type", VStr "api_key"); ("key", api_key)]);
                 ("endpoint", url); ("index_name", index_name)])
  | _ => Raise (ValueError "unpack")
  end.

Definition azure_key_vault_settings_from_dot_env
    (config : gmap string (option string))
    (include_client_id include_client_secret : bool) : result value :=
  let endpoint := get config "AZURE_KEY_VAULT_ENDPOINT" in
  let client_id := get config "AZURE_KEY_VAULT_CLIENT_ID" in
  let client_secret := get config "AZURE_KEY_VAULT_CLIENT_SECRET" in
  _ ← assert_ (is_not_None endpoint) "Azure Key Vault endpoint not found in .env file";
  _ ← (if include_client_id
       then assert_ (is_not_None client_id)
              "Azure Key Vault client ID not found in .env file"
       else Ok ());
  _ ← (if include_client_secret
       then assert_ (is_not_None client_secret)
              "Azure Key Vault client secret not found in .env file"
       else Ok ());
  if include_client_id && include_client_secret
  then Ok (VTuple [of_opt endpoint; of_opt client_id; of_opt client_secret])
  else Ok (VTuple [of_opt endpoint; of_opt client_id]).

Definition azure_key_vault_settings_from_dot_env_as_dict
    (config : gmap string (option string)) : result value :=
  t ← azure_key_vault_settings_from_dot_env config true true;
  items ← unpack 3 t;
  match items with
  | [endpoint; client_id; client_secret] =>
      Ok (VDict [("endpoint", endpoint); ("client_id", client_id);
                 ("client_secret", client_secret)])
  | _ => Raise (ValueError "unpack")
  end.

Definition booking_sample_settings_from_dot_env
    (config : gmap string (option string)) : result value :=
  let client_id := get config "BOOKING_SAMPLE_CLIENT_ID" in
  let tenant_id := get config "BOOKING_SAMPLE_TENANT_ID" in
  let client_secret := get config "BOOKING_SAMPLE_CLIENT_SECRET" in
  _ ← assert_ (truthy client_id) "Booking Sample Client ID not found in .env file";
  _ ← assert_ (truthy tenant_id) "Booking Sample Tenant ID not found in .env file";
  _ ← assert_ (truthy client_secret)
        "Booking Sample Client Secret not found in .env file";
  Ok (VTuple [of_opt client_id; of_opt tenant_id; of_opt client_secret]).

Definition booking_sample_settings_from_dot_env_as_dict
    (config : gmap string (option string)) : result value :=
  t ← booking_sample_settings_from_dot_env config;
  items ← unpack 3 t;
  match items with
  | [client_id; tenant_id; client_secret] =>
      Ok (VDict [("client_id", client_id); ("tenant_id", tenant_id);
                 ("client_secret", client_secret)])
  | _ => Raise (ValueError "unpack")
  end.

(** ** The accessors as one family

    The file as the module sees it, and a dispatcher over the eighteen
    accessors with their flag arguments. *)

Record env_file : Type := {
  dotenv_values : gmap string (option string);
  readlines : list string
}.

Inductive accessor : Type :=
  | OpenAI
  | AzureOpenAI (include_deployment include_api_version : bool)
  | AzureOpenAIDict (include_deployment include_api_version : bool)
  | Postgres
  | Pinecone
  | AstraDB
  | Weaviate
  | BingSearch
  | MongoDBAtlas
  | GooglePalm
  | AzureCosmosDB
  | Redis
  | AzureAISearch (include_index_name : bool)
  | AzureAISearchDict
  | AzureKeyVault (include_client_id include_client_secret : bool)
  | AzureKeyVaultDict
  | BookingSample
  | BookingSampleDict.

Definition call (a : accessor) (f : env_file) : result value :=
  match a with
  | OpenAI => openai_settings_from_dot_env (dotenv_values f)
  | AzureOpenAI d v => azure_openai_settings_from_dot_env (dotenv_values f) d v
  | AzureOpenAIDict d v =>
      azure_openai_settings_from_dot_env_as_dict (dotenv_values f) d v
  | Postgres => postgres_settings_from_dot_env (dotenv_values f)
  | Pinecone => pinecone_settings_from_dot_env (readlines f)
  | AstraDB => astradb_settings_from_dot_env (readlines f)
  | Weaviate => weaviate_settings_from_dot_env (dotenv_values f)
  | BingSearch => bing_search_settings_from_dot_env (dotenv_values f)
  | MongoDBAtlas => mongodb_atlas_settings_from_dot_env (dotenv_values f)
  | GooglePalm => google_palm_settings_from_dot_env (dotenv_values f)
  | AzureCosmosDB => azure_cosmos_db_settings_from_dot_env (dotenv_values f)
  | Redis => redis_settings_from_dot_env (dotenv_values f)
  | AzureAISearch i => azure_aisearch_settings_from_dot_env (dotenv_values f) i
  | AzureAISearchDict =>
      azure_aisearch_settings_from_dot_env_as_dict (dotenv_values f)
  | AzureKeyVault c s => azure_key_vault_settings_from_dot_env (dotenv_values f) c s
  | AzureKeyVaultDict =>
      azure_key_vault_settings_from_dot_env_as_dict (dotenv_values f)
  | BookingSample => booking_sample_settings_from_dot_env (dotenv_values f)
  | BookingSampleDict =>
      booking_sample_settings_from_dot_env_as_dict (dotenv_values f)
  end.

(** ** The contract of the specification

    The definitions below follow the specification, not the code: the table
    of required keys per service, how a key is looked up in the source, and
    the shape of the result bundle. The theorems compare them with [call]. *)

(** What the presence check of a key accepts: a non-empty value, or any
    value. *)
Inductive check : Type := NonEmpty | Present.

Record requirement : Type := {
  key : string;
  kind : check;
  message : string
}.

Definition passes (c : check) (x : option string) : bool :=
  match c with
  | NonEmpty => truthy x
  | Present => is_not_None x
  end.

Definition when (b : bool) (r : requirement) : list requirement :=
  if b then [r] else [].

Definition azure_openai_requirements (d v : bool) : list requirement :=
  when d {| key := "AZURE_OPENAI_DEPLOYMENT_NAME"; kind := Present;
            message := "Azure OpenAI deployment name not found in .env file" |}
  ++ when v {| key := "AZURE_OPENAI_API_VERSION"; kind := Present;
               message := "Azure OpenAI API version not found in .env file" |}
  ++ [ {| key := "AZURE_OPENAI_API_KEY"; kind := NonEmpty;
          message := "Azure OpenAI API key not found in .env file" |};
       {| key := "AZURE_OPENAI_ENDPOINT"; kind := NonEmpty;
          message := "Azure OpenAI endpoint not found in .env file" |} ].

Definition azure_aisearch_requirements (i : bool) : list requirement :=
  [ {| key := "AZURE_AISEARCH_URL"; kind := Present;
       message := "Azure AI Search URL not found in .env file" |};
    {| key := "AZURE_AISEARCH_API_KEY"; kind := Present;
       message := "Azure AI Search API key not found in .env file" |} ]
  ++ when i {| key := "AZURE_AISEARCH_INDEX_NAME"; kind := Present;
               message := "Azure AI Search index name not found in .env file" |}.

Definition azure_key_vault_requirements (c s : bool) : list requirement :=
  [ {| key := "AZURE_KEY_VAULT_ENDPOINT"; kind := Present;
       message := "Azure Key Vault endpoint not found in .env file" |} ]
  ++ when c {| key := "AZURE_KEY_VAULT_CLIENT_ID"; kind := Present;
               message := "Azure Key Vault client ID not found in .env file" |}
  ++ when s {| key := "AZURE_KEY_VAULT_CLIENT_SECRET"; kind := Present;
               message := "Azure Key Vault client secret not found in .env file" |}.

Definition booking_sample_requirements : list requirement :=
  [ {| key := "BOOKING_SAMPLE_CLIENT_ID"; kind := NonEmpty;
       message := "Booking Sample Client ID not found in .env file" |};
    {| key := "BOOKING_SAMPLE_TENANT_ID"; kind := NonEmpty;
       message := "Booking Sample Tenant ID not found in .env file" |};
    {| key := "BOOKING_SAMPLE_CLIENT_SECRET"; kind := NonEmpty;
       message := "Booking Sample Client Secret not found in .env file" |} ].

(** The required keys of an accessor, in the order it checks them, each with
    what its check accepts and the message of the error it raises. *)
Definition requirements (a : accessor) : list requirement :=
  match a with
  | OpenAI =>
      [ {| key := "OPENAI_API_KEY"; kind := NonEmpty;
           message := "OpenAI API key not found in .env file" |} ]
  | AzureOpenAI d v | AzureOpenAIDict d v => azure_openai_requirements d v
  | Postgres =>
      [ {| key := "POSTGRES_CONNECTION_STRING"; kind := NonEmpty;
           message := "Postgres connection string not found in .env file" |} ]
  | Pinecone =>
      [ {| key := "PINECONE_API_KEY"; kind := NonEmpty;
           message := "Pinecone API key not found in .env file" |};
        {| key := "PINECONE_ENVIRONMENT"; kind := NonEmpty;
           message := "Pinecone environment not found in .env file" |} ]
  | AstraDB =>
      [ {| key := "ASTRADB_APP_TOKEN"; kind := NonEmpty;
           message := "Astradb Application token not found in .env file" |};
        {| key := "ASTRADB_ID"; kind := NonEmpty;
           message := "Astradb ID not found in .env file" |};
        {| key := "ASTRADB_REGION"; kind := NonEmpty;
           message := "Astradb Region not found in .env file" |};
        {| key := "ASTRADB_KEYSPACE"; kind := NonEmpty;
           message := "Astradb Keyspace name not found in .env file" |} ]
  | Weaviate =>
      [ {| key := "WEAVIATE_URL"; kind := Present;
           message := "Weaviate instance URL not found in .env file" |} ]
  | BingSearch =>
      [ {| key := "BING_API_KEY"; kind := Present;
           message := "Bing Search API key not found in .env file" |} ]
  | MongoDBAtlas =>
      [ {| key := "MONGODB_ATLAS_CONNECTION_STRING"; kind := Present;
           message := "MongoDB Connection String not found in .env file" |} ]
  | GooglePalm =>
      [ {| key := "GOOGLE_PALM_API_KEY"; kind := Present;
           message := "Google PaLM API key not found in .env file" |} ]
  | AzureCosmosDB =>
      [ {| key := "AZCOSMOS_CONNSTR"; kind := Present;
           message := "Azure Cosmos Connection String not found in .env file" |} ]
  | Redis =>
      [ {| key := "REDIS_CONNECTION_STRING"; kind := Present;
           message := "Redis connection string not found in .env file" |} ]
  | AzureAISearch i => azure_aisearch_requirements i
  | AzureAISearchDict => azure_aisearch_requirements true
  | AzureKeyVault c s => azure_key_vault_requirements c s
  | AzureKeyVaultDict => azure_key_vault_requirements true true
  | BookingSample | BookingSampleDict => booking_sample_requirements
  end.

(** The value the line scan leaves in the variable of [prefix]: the one of the
    last line that begins with [prefix]. *)
Definition scan_step (prefix : string) (acc : option string) (line : string)
  : option string :=
  if Str.startswith line prefix then Some (line_value line) else acc.

Definition last_assigned (prefix : string) (lines : list string) : option string :=
  fold_left (scan_step prefix) lines None.

Definition line_scanning (a : accessor) : bool :=
  match a with
  | Pinecone | AstraDB => true
  | _ => false
  end.

(** The value of key [k] in the source, as accessor [a] looks it up. *)
Definition read (a : accessor) (f : env_file) (k : string) : option string :=
  if line_scanning a then last_assigned k (readlines f)
  else get (dotenv_values f) k.

(** The message of the first requirement that the source does not meet. *)
Fixpoint first_failure (rd : string → option string) (reqs : list requirement)
  : option string :=
  match reqs with
  | [] => None
  | r :: reqs' =>
      if passes (kind r) (rd (key r)) then first_failure rd reqs'
      else Some (message r)
  end.

Definition optional_field (b : bool) (name : string) (v : value)
  : list (string * value) :=
  if b then [(name, v)] else [].

(** The result bundle of an accessor: each field is the value of its key in
    the source ([None] for an absent optional key; the empty string for the
    deployment name and the API version of Azure OpenAI); the mapping variants
    carry the fields of the tuple variants under their names. *)
Definition bundle (a : accessor) (rd : string → option string) : value :=
  match a with
  | OpenAI => VTuple [of_opt (rd "OPENAI_API_KEY"); of_opt (rd "OPENAI_ORG_ID")]
  | AzureOpenAI d v =>
      VTuple ([VStr (or_ (rd "AZURE_OPENAI_DEPLOYMENT_NAME") "");
               of_opt (rd "AZURE_OPENAI_API_KEY");
               of_opt (rd "AZURE_OPENAI_ENDPOINT")]
              ++ (if v then [VStr (or_ (rd "AZURE_OPENAI_API_VERSION") "")]
                  else []))
  | AzureOpenAIDict d v =>
      VDict ([("api_key", of_opt (rd "AZURE_OPENAI_API_KEY"));
              ("endpoint", of_opt (rd "AZURE_OPENAI_ENDPOINT"))]
             ++ optional_field d "deployment_name"
                  (VStr (or_ (rd "AZURE_OPENAI_DEPLOYMENT_NAME") ""))
             ++ optional_field v "api_version"
                  (VStr (or_ (rd "AZURE_OPENAI_API_VERSION") "")))
  | Postgres => of_opt (rd "POSTGRES_CONNECTION_STRING")
  | Pinecone =>
      VTuple [of_opt (rd "PINECONE_API_KEY"); of_opt (rd "PINECONE_ENVIRONMENT")]
  | AstraDB =>
      VTuple [of_opt (rd "ASTRADB_APP_TOKEN"); of_opt (rd "ASTRADB_ID");
              of_opt (rd "ASTRADB_REGION"); of_opt (rd "ASTRADB_KEYSPACE")]
  | Weaviate => VTuple [of_opt (rd "WEAVIATE_API_KEY"); of_opt (rd "WEAVIATE_URL")]
  | BingSearch => of_opt (rd "BING_API_KEY")
  | MongoDBAtlas => of_opt (rd "MONGODB_ATLAS_CONNECTION_STRING")
  | GooglePalm => of_opt (rd "GOOGLE_PALM_API_KEY")
  | AzureCosmosDB =>
      VTuple [of_opt (rd "AZCOSMOS_API"); of_opt (rd "AZCOSMOS_CONNSTR")]
  | Redis => of_opt (rd "REDIS_CONNECTION_STRING")
  | AzureAISearch i =>
      VTuple ([of_opt (rd "AZURE_AISEARCH_API_KEY"); of_opt (rd "AZURE_AISEARCH_URL")]
              ++ (if i then [of_opt (rd "AZURE_AISEARCH_INDEX_NAME")] else []))
  | AzureAISearchDict =>
      VDict [("authentication",
              VDict [("type", VStr "api_key");
                     ("key", of_opt (rd "AZURE_AISEARCH_API_KEY"))]);
             ("endpoint", of_opt (rd "AZURE_AISEARCH_URL"));
             ("index_name", of_opt (rd "AZURE_AISEARCH_INDEX_NAME"))]
  | AzureKeyVault c s =>
      VTuple ([of_opt (rd "AZURE_KEY_VAULT_ENDPOINT");
               of_opt (rd "AZURE_KEY_VAULT_CLIENT_ID")]
              ++ (if c && s then [of_opt (rd "AZURE_KEY_VAULT_CLIENT_SECRET")]
                  else []))
  | AzureKeyVaultDict =>
      VDict [("endpoint", of_opt (rd "AZURE_KEY_VAULT_ENDPOINT"));
             ("client_id", of_opt (rd "AZURE_KEY_VAULT_CLIENT_ID"));
             ("client_secret", of_opt (rd "AZURE_KEY_VAULT_CLIENT_SECRET"))]
  | BookingSample =>
      VTuple [of_opt (rd "BOOKING_SAMPLE_CLIENT_ID");
              of_opt (rd "BOOKING_SAMPLE_TENANT_ID");
              of_opt (rd "BOOKING_SAMPLE_CLIENT_SECRET")]
  | BookingSampleDict =>
      VDict [("client_id", of_opt (rd "BOOKING_SAMPLE_CLIENT_ID"));
             ("tenant_id", of_opt (rd "BOOKING_SAMPLE_TENANT_ID"));
             ("client_secret", of_opt (rd "BOOKING_SAMPLE_CLIENT_SECRET"))]
  end.

(** The mapping variant of Azure OpenAI unpacks four values; without the API
    version the tuple variant returns three. *)
Definition unpacks_short (a : accessor) : bool :=
  match a with
  | AzureOpenAIDict _ false => true
  | _ => false
  end.

(** What [call] does, told from the table. *)
Definition outcome (a : accessor) (f : env_file) : result value :=
  match first_failure (read a f) (requirements a) with
  | Some msg => Raise (AssertionError msg)
  | None =>
      if unpacks_short a
      then Raise (ValueError "not enough values to unpack (expected 4, got 3)")
      else Ok (bundle a (read a f))
  end.

(** Predicates on strings used to state the properties of [line_value]. *)

(** [n] double quotes. *)
Fixpoint quotes (n : nat) : string :=
  match n with
  | O => EmptyString
  | S n' => String Str.dquote (quotes n')
  end.

(** No character of [s] satisfies [p], resp. all of them do. *)
Fixpoint none_of (p : ascii → bool) (s : string) : bool :=
  match s with
  | EmptyString => true
  | String c s' => negb (p c) && none_of p s'
  end.

Fixpoint all_of (p : ascii → bool) (s : string) : bool :=
  match s with
  | EmptyString => true
  | String c s' => p c && all_of p s'
  end.

(** The first, resp. last, character of [s], if any, does not satisfy [p]. *)
Definition first_not (p : ascii → bool) (s : string) : bool :=
  match s with
  | EmptyString => true
  | String c _ => negb (p c)
  end.

Fixpoint last_not (p : ascii → bool) (s : string) : bool :=
  match s with
  | EmptyString => true
  | String c EmptyString => negb (p c)
  | String _ s' => last_not p s'
  end.

Definition is_dquote (c : ascii) : bool := Ascii.eqb c Str.dquote.
Definition is_equals (c : ascii) : bool := Ascii.eqb c Str.equals.

(** [v] neither begins nor ends with a double quote. *)
Definition no_outer_quote (v : string) : bool :=
  first_not is_dquote v && last_not is_dquote v.

(** The text of an assignment line: the key, [=], the text of the value. *)
Definition assignment (k raw : string) : string := k +:+ "=" +:+ raw.

(** [v] between [n] opening and [m] closing double quotes, followed by [ws]. *)
Definition quoted (n m : nat) (v ws : string) : string :=
  quotes n +:+ v +:+ quotes m +:+ ws.

(** The last line of [lines] that begins with [k] is [line]. *)
Definition last_line_of (k line : string) (lines : list string) : Prop :=
  ∃ before after,
    lines = before ++ line :: after
    ∧ Str.startswith line k = true
    ∧ Forall (λ l, Str.startswith l k = false) after.

(** [lines] holds the assignment line of key [k] with the text [raw], and no
    later line begins with [k]. *)
Definition assigned_last (k raw : string) (lines : list string) : Prop :=
  ∃ before after,
    lines = before ++ assignment k raw :: after
    ∧ Forall (λ l, Str.startswith l k = false) after.

(** The value of [raw], the text of a value in an assignment line, once the
    surrounding blanks and then the surrounding double quotes are removed. *)
Definition unquoted (raw : string) : string :=
  Str.strip_by is_dquote (Str.strip raw).

(** The source gives key [k] the value [v], as accessor [a] reads the source:
    a binding of the mapping or, for the line scanners, an assignment line
    of [k] after which no line begins with [k]. *)
Definition holds (a : accessor) (f : env_file) (k v : string) : Prop :=
  if line_scanning a
  then ∃ raw, assigned_last k raw (readlines f) ∧ v = unquoted raw
  else dotenv_values f !! k = Some (Some v).

(** The two calls whose result is short of a field (see C1 and C4). *)
Definition short_of_a_field (a : accessor) : bool :=
  match a with
  | AzureOpenAIDict _ false => true
  | AzureKeyVault false true => true
  | _ => false
  end.

(** The source has no value for key [k], as accessor [a] reads the source:
    the mapping gives [None] for [k] or, for the line scanners, no line of
    the file begins with [k]. *)
Definition lacks (a : accessor) (f : env_file) (k : string) : Prop :=
  if line_scanning a
  then Forall (λ l, Str.startswith l k = false) (readlines f)
  else get (dotenv_values f) k = None.

(** The source does not provide what requirement [r] of [a] asks for: it has
    no value for the key, or the empty string where a non-empty value is
    asked for. *)
Definition misses (a : accessor) (f : env_file) (r : requirement) : Prop :=
  lacks a f (key r) ∨ (kind r = NonEmpty ∧ holds a f (key r) "").

(** The source provides what requirement [r] of [a] asks for: a value, which
    is non-empty where a non-empty value is asked for. *)
Definition meets (a : accessor) (f : env_file) (r : requirement) : Prop :=
  ∃ v, holds a f (key r) v ∧ (kind r = NonEmpty → v ≠ "").

(** The value accessor [a] finds for key [k]: the value of [k] in the mapping
    or, for the line scanners, the value parsed from the last line of the
    file that begins with [k], whatever key that line assigns. *)
Definition finds (a : accessor) (f : env_file) (k v : string) : Prop :=
  if line_scanning a
  then ∃ line, last_line_of k line (readlines f) ∧ line_value line = v
  else get (dotenv_values f) k = Some v.

(** An optional field switched off by its flag, with the key of the field. *)
Inductive switched_off : accessor → string → Prop :=
  | off_deployment (v : bool) :
      switched_off (AzureOpenAI false v) "AZURE_OPENAI_DEPLOYMENT_NAME"
  | off_api_version (d : bool) :
      switched_off (AzureOpenAI d false) "AZURE_OPENAI_API_VERSION"
  | off_index_name :
      switched_off (AzureAISearch false) "AZURE_AISEARCH_INDEX_NAME"
  | off_client_id (s : bool) :
      switched_off (AzureKeyVault false s) "AZURE_KEY_VAULT_CLIENT_ID"
  | off_client_secret (c : bool) :
      switched_off (AzureKeyVault c false) "AZURE_KEY_VAULT_CLIENT_SECRET".

(** The source without any binding of [k]. *)
Definition without (k : string) (f : env_file) : env_file :=
  {| dotenv_values := delete k (dotenv_values f); readlines := readlines f |}.

(** ** Sample sources *)

Definition nl : string := String Str.newline "".

Definition only_dotenv (config : gmap string (option string)) : env_file :=
  {| dotenv_values := config; readlines := [] |}.

Definition only_lines (lines : list string) : env_file :=
  {| dotenv_values := ∅; readlines := lines |}.

Definition openai_sample : gmap string (option string) :=
  {[ "OPENAI_API_KEY" := Some "sk-abc123" ]}.

Definition azure_openai_sample : gmap string (option string) :=
  {[ "AZURE_OPENAI_DEPLOYMENT_NAME" := Some "gpt";
     "AZURE_OPENAI_API_KEY" := Some "k";
     "AZURE_OPENAI_ENDPOINT" := Some "https://x" ]}.

Definition azure_openai_no_deployment : gmap string (option string) :=
  {[ "AZURE_OPENAI_API_KEY" := Some "k";
     "AZURE_OPENAI_ENDPOINT" := Some "https://x" ]}.

Definition bing_empty : gmap string (option string) :=
  {[ "BING_API_KEY" := Some "" ]}.

Definition redis_empty : gmap string (option string) :=
  {[ "REDIS_CONNECTION_STRING" := Some "" ]}.

Definition key_vault_secret_only : gmap string (option string) :=
  {[ "AZURE_KEY_VAULT_ENDPOINT" := Some "https://vault";
     "AZURE_KEY_VAULT_CLIENT_SECRET" := Some "s3cret" ]}.

Definition aisearch_no_index : gmap string (option string) :=
  {[ "AZURE_AISEARCH_API_KEY" := Some "k";
     "AZURE_AISEARCH_URL" := Some "https://search" ]}.

Definition aisearch_sample : gmap string (option string) :=
  {[ "AZURE_AISEARCH_API_KEY" := Some "k";
     "AZURE_AISEARCH_URL" := Some "https://search";
     "AZURE_AISEARCH_INDEX_NAME" := Some "idx" ]}.

(** [PINECONE_API_KEY=a], [PINECONE_ENVIRONMENT=e] and a third line that
    assigns the longer key [PINECONE_API_KEY_BACKUP]. *)
Definition pinecone_with_backup : list string :=
  [ assignment "PINECONE_API_KEY" ("a" +:+ nl);
    assignment "PINECONE_ENVIRONMENT" ("e" +:+ nl);
    assignment "PINECONE_API_KEY_BACKUP" ("b" +:+ nl) ].

(** The API key [Server=db;Password=p] between double quotes. *)
Definition pinecone_quoted : list string :=
  [ assignment "PINECONE_API_KEY" (quoted 1 1 "Server=db;Password=p" nl);
    assignment "PINECONE_ENVIRONMENT" ("e" +:+ nl) ].

(** The API key [a=b] followed by a double quote, between double quotes. *)
Definition pinecone_quote_inside : list string :=
  [ assignment "PINECONE_API_KEY" (quoted 1 1 ("a=b" +:+ quotes 1) nl);
    assignment "PINECONE_ENVIRONMENT" ("e" +:+ nl) ].

(** The API key [v] between two layers of double quotes. *)
Definition pinecone_nested_quotes : list string :=
  [ assignment "PINECONE_API_KEY" (quoted 2 2 "v" nl);
    assignment "PINECONE_ENVIRONMENT" ("e" +:+ nl) ].

(** ** Further notions for the properties of the accessors *)

(** A line the scan of accessor [a] acts on: it begins with one of the keys
    of [a]. *)
Definition scanned (a : accessor) (line : string) : bool :=
  existsb (Str.startswith line) (map key (requirements a)).

(** [lines] without the lines the scan of [a] passes over. *)
Definition scanned_only (a : accessor) (lines : list string) : list string :=
  filter (λ line, scanned a line = true) lines.

(** A comment, a blank line, an indented assignment and the four
    assignments of AstraDB, the region between double quotes. *)
Definition astradb_sample : list string :=
  [ "# AstraDB" +:+ nl;
    assignment "ASTRADB_APP_TOKEN" ("AstraCS:tok=1" +:+ nl);
    nl;
    assignment "ASTRADB_ID" ("db-1" +:+ nl);
    assignment " ASTRADB_ID" ("indented" +:+ nl);
    assignment "ASTRADB_REGION" (quoted 1 1 "us-east1" nl);
    assignment "ASTRADB_KEYSPACE" ("ks" +:+ nl) ].

(** [PINECONE_ENVIRONMENT=e] and then the bare word [PINECONE_API_KEY]. *)
Definition pinecone_bare_key : list string :=
  [ assignment "PINECONE_ENVIRONMENT" ("e" +:+ nl);
    "PINECONE_API_KEY" +:+ nl ].

Definition key_vault_sample : gmap string (option string) :=
  {[ "AZURE_KEY_VAULT_ENDPOINT" := Some "https://vault";
     "AZURE_KEY_VAULT_CLIENT_ID" := Some "id";
     "AZURE_KEY_VAULT_CLIENT_SECRET" := Some "s3cret" ]}.

Definition booking_sample : gmap string (option string) :=
  {[ "BOOKING_SAMPLE_CLIENT_ID" := Some "c";
     "BOOKING_SAMPLE_TENANT_ID" := Some "t";
     "BOOKING_SAMPLE_CLIENT_SECRET" := Some "s" ]}.

Definition azure_openai_with_version : gmap string (option string) :=
  {[ "AZURE_OPENAI_API_KEY" := Some "k";
     "AZURE_OPENAI_ENDPOINT" := Some "https://x";
     "AZURE_OPENAI_API_VERSION" := Some "2024-02-01" ]}.

(** ** Proof automation *)

Ltac unfold_accessors :=
  unfold call, openai_settings_from_dot_env, azure_openai_settings_from_dot_env_as_dict,
    azure_openai_settings_from_dot_env, postgres_settings_from_dot_env,
    pinecone_settings_from_dot_env, astradb_settings_from_dot_env,
    weaviate_settings_from_dot_env, bing_search_settings_from_dot_env,
    mongodb_atlas_settings_from_dot_env, google_palm_settings_from_dot_env,
    azure_cosmos_db_settings_from_dot_env, redis_settings_from_dot_env,
    azure_aisearch_settings_from_dot_env_as_dict, azure_aisearch_settings_from_dot_env,
    azure_key_vault_settings_from_dot_env_as_dict, azure_key_vault_settings_from_dot_env,
    booking_sample_settings_from_dot_env_as_dict, booking_sample_settings_from_dot_env.

Ltac unfold_table :=
  cbv [outcome first_failure requirements read line_scanning bundle unpacks_short
       azure_openai_requirements azure_aisearch_requirements
       azure_key_vault_requirements booking_sample_requirements when
       optional_field key kind message passes app].

Ltac case_reads :=
  repeat match goal with
    | |- context [get ?c ?k] => destruct (get c k) as [[|? ?]|]
    | |- context [last_assigned ?k ?l] => destruct (last_assigned k l) as [[|? ?]|]
    end.

(** * Facts on the string methods *)

#[local] Arguments String.append !_ _ / : simpl nomatch.

Module StrFacts.
Import Str.

Lemma append_nil_r (s : string) : s +:+ "" = s.
Proof. induction s as [|c s IH]; simpl; [reflexivity | now rewrite IH]. Qed.

Lemma append_assoc (s t u : string) : (s +:+ t) +:+ u = s +:+ t +:+ u.
Proof. induction s as [|c s IH]; simpl; [reflexivity | now rewrite IH]. Qed.

Lemma split_not_nil (s : string) (sep : ascii) : split s sep ≠ [].
Proof.
  destruct s as [|c s]; simpl; [discriminate |].
  destruct (Ascii.eqb c sep); [discriminate |].
  destruct (split s sep); discriminate.
Qed.

(** Joining the parts of a split with the separator gives the string back. *)
Lemma join_split (s : string) (sep : ascii) :
  join (String sep "") (split s sep) = s.
Proof.
  unfold join. induction s as [|c s IH]; simpl; [reflexivity |].
  destruct (Ascii.eqb_spec c sep) as [->|Hne].
  - pose proof (split_not_nil s sep) as Hnil.
    simpl. destruct (split s sep) as [|w ws]; [contradiction |].
    simpl in *. now rewrite IH.
  - pose proof (split_not_nil s sep) as Hnil.
    destruct (split s sep) as [|w ws]; [contradiction |].
    simpl in *. destruct ws; simpl in *; now rewrite <- IH.
Qed.

(** A prefix without the separator is the first part of the split. *)
Lemma split_prefix (k rest : string) (sep : ascii) :
  none_of (λ c, Ascii.eqb c sep) k = true →
  split (k +:+ String sep rest) sep = k :: split rest sep.
Proof.
  induction k as [|c k IH]; simpl; intros Hk.
  - now rewrite Ascii.eqb_refl.
  - apply andb_true_iff in Hk as [Hc Hk].
    apply negb_true_iff in Hc. rewrite Hc, (IH Hk). reflexivity.
Qed.

Lemma lstrip_by_ext (p q : ascii → bool) (s : string) :
  (∀ c, p c = q c) → lstrip_by p s = lstrip_by q s.
Proof.
  intros E. induction s as [|c s IH]; simpl; [reflexivity |].
  now rewrite E, IH.
Qed.

Lemma rstrip_by_ext (p q : ascii → bool) (s : string) :
  (∀ c, p c = q c) → rstrip_by p s = rstrip_by q s.
Proof.
  intros E. induction s as [|c s IH]; simpl; [reflexivity |].
  now rewrite E, IH.
Qed.

Lemma lstrip_first_not (p : ascii → bool) (s : string) :
  first_not p s = true → lstrip_by p s = s.
Proof.
  destruct s as [|c s]; simpl; [reflexivity |].
  intros H. apply negb_true_iff in H. now rewrite H.
Qed.

Lemma lstrip_all_of (p : ascii → bool) (s t : string) :
  all_of p s = true → lstrip_by p (s +:+ t) = lstrip_by p t.
Proof.
  induction s as [|c s IH]; simpl; [reflexivity |].
  intros H. apply andb_true_iff in H as [Hc Hs]. rewrite Hc. auto.
Qed.

Lemma rstrip_all_of (p : ascii → bool) (s : string) :
  all_of p s = true → rstrip_by p s = "".
Proof.
  induction s as [|c s IH]; simpl; [reflexivity |].
  intros H. apply andb_true_iff in H as [Hc Hs]. now rewrite (IH Hs), Hc.
Qed.

Lemma rstrip_last_not (p : ascii → bool) (s : string) :
  last_not p s = true → rstrip_by p s = s.
Proof.
  induction s as [|c s IH]; [reflexivity |].
  destruct s as [|d s].
  - simpl. intros H. apply negb_true_iff in H. now rewrite H.
  - intros H. change (last_not p (String c (String d s)))
      with (last_not p (String d s)) in H.
    change (rstrip_by p (String c (String d s)))
      with (match rstrip_by p (String d s) with
            | EmptyString => if p c then EmptyString else String c EmptyString
            | r => String c r
            end).
    now rewrite (IH H).
Qed.

Lemma rstrip_app_all_of (p : ascii → bool) (s t : string) :
  all_of p t = true → rstrip_by p (s +:+ t) = rstrip_by p s.
Proof.
  intros Ht. induction s as [|c s IH]; simpl.
  - now apply rstrip_all_of.
  - now rewrite IH.
Qed.

Lemma last_not_app (p : ascii → bool) (s t : string) :
  t ≠ "" → last_not p (s +:+ t) = last_not p t.
Proof.
  intros Ht. induction s as [|c s IH]; [reflexivity |].
  simpl. destruct (s +:+ t) eqn:E; [| exact IH].
  destruct s; simpl in E; [contradiction | discriminate].
Qed.

(** Two prefixes of one string: one is a prefix of the other. *)
Lemma startswith_both (s p1 p2 : string) :
  startswith s p1 = true → startswith s p2 = true →
  startswith p1 p2 = true ∨ startswith p2 p1 = true.
Proof.
  revert s p2. induction p1 as [|c1 p1 IH]; intros s p2; [now right |].
  destruct p2 as [|c2 p2]; [now left |].
  destruct s as [|c s]; simpl; [discriminate |].
  intros H1 H2.
  apply andb_true_iff in H1 as [Hc1 H1]. apply andb_true_iff in H2 as [Hc2 H2].
  apply Ascii.eqb_eq in Hc1, Hc2. subst c1 c2.
  rewrite Ascii.eqb_refl. simpl. eauto.
Qed.

Lemma startswith_append (k rest : string) : startswith (k +:+ rest) k = true.
Proof.
  induction k as [|c k IH]; simpl; [reflexivity |].
  now rewrite Ascii.eqb_refl.
Qed.

End StrFacts.

(** * Facts on the line scan *)

Lemma is_dquote_mem (c : ascii) :
  Str.mem c (String Str.dquote "") = is_dquote c.
Proof. unfold is_dquote. simpl. apply orb_false_r. Qed.

Lemma strip_chars_dquote (s : string) :
  Str.strip_chars s (String Str.dquote "") = Str.strip_by is_dquote s.
Proof.
  unfold Str.strip_chars, Str.strip_by.
  rewrite (StrFacts.lstrip_by_ext _ is_dquote) by apply is_dquote_mem.
  apply StrFacts.rstrip_by_ext, is_dquote_mem.
Qed.

(** On an assignment line whose key holds no [=], the scan keeps the text
    after the first [=], stripped of surrounding blanks and then of
    surrounding double quotes. *)
Lemma line_value_assignment (k raw : string) :
  none_of is_equals k = true →
  line_value (assignment k raw) = Str.strip_by is_dquote (Str.strip raw).
Proof.
  intros Hk. unfold line_value, assignment.
  change (k +:+ "=" +:+ raw) with (k +:+ String Str.equals raw).
  rewrite (StrFacts.split_prefix k raw Str.equals Hk).
  change (drop 1 (k :: Str.split raw Str.equals)) with (Str.split raw Str.equals).
  change "="%string with (String Str.equals "").
  rewrite StrFacts.join_split. apply strip_chars_dquote.
Qed.

Lemma all_of_quotes (n : nat) : all_of is_dquote (quotes n) = true.
Proof. induction n as [|n IH]; simpl; [reflexivity | exact IH]. Qed.

Lemma last_not_quotes (p : ascii → bool) (n : nat) :
  last_not p (quotes (S n)) = negb (p Str.dquote).
Proof.
  induction n as [|n IH]; [reflexivity |].
  change (last_not p (quotes (S (S n)))) with (last_not p (quotes (S n))).
  exact IH.
Qed.

(** Whatever the number of quotes on each side, a value that has none at
    its own ends comes out bare. *)
Lemma unquote_quoted (n m : nat) (v ws : string) :
  no_outer_quote v = true →
  all_of Str.isspace ws = true →
  Str.strip_by is_dquote (Str.strip (quoted (S n) (S m) v ws)) = v.
Proof.
  intros Hv Hws. apply andb_true_iff in Hv as [Hfirst Hlast].
  unfold Str.strip, Str.strip_by, quoted.
  rewrite (StrFacts.lstrip_first_not Str.isspace) by reflexivity.
  rewrite <- !StrFacts.append_assoc.
  rewrite (StrFacts.rstrip_app_all_of Str.isspace _ ws Hws).
  rewrite (StrFacts.rstrip_last_not Str.isspace).
  2:{ rewrite StrFacts.last_not_app by discriminate. apply last_not_quotes. }
  rewrite StrFacts.append_assoc.
  rewrite (StrFacts.lstrip_all_of is_dquote _ _ (all_of_quotes (S n))).
  destruct v as [|c v].
  - change ("" +:+ quotes (S m)) with (quotes (S m)).
    rewrite <- (StrFacts.append_nil_r (quotes (S m))).
    rewrite (StrFacts.lstrip_all_of is_dquote _ _ (all_of_quotes (S m))).
    reflexivity.
  - rewrite (StrFacts.lstrip_first_not is_dquote) by exact Hfirst.
    rewrite (StrFacts.rstrip_app_all_of is_dquote _ _ (all_of_quotes (S m))).
    now apply StrFacts.rstrip_last_not.
Qed.

Lemma scan_step_no_match (k : string) (lines : list string) (acc : option string) :
  Forall (λ l, Str.startswith l k = false) lines →
  fold_left (scan_step k) lines acc = acc.
Proof.
  intros H. revert acc. induction H as [|l ls Hl _ IH]; intros acc; simpl.
  - reflexivity.
  - unfold scan_step at 2. now rewrite Hl.
Qed.

(** The scan keeps the value of the last line that begins with the key. *)
Lemma last_assigned_last_line (k line : string) (lines : list string) :
  last_line_of k line lines → last_assigned k lines = Some (line_value line).
Proof.
  intros (before & after & -> & Hline & Hafter).
  unfold last_assigned. rewrite fold_left_app. simpl.
  unfold scan_step at 2. rewrite Hline. now apply scan_step_no_match.
Qed.

Lemma last_assigned_none (k : string) (lines : list string) :
  Forall (λ l, Str.startswith l k = false) lines → last_assigned k lines = None.
Proof. apply scan_step_no_match. Qed.

(** Keys of which none is a prefix of the other never match the same line. *)
Lemma startswith_apart (s p1 p2 : string) :
  Str.startswith p1 p2 = false → Str.startswith p2 p1 = false →
  Str.startswith s p1 = true → Str.startswith s p2 = false.
Proof.
  intros H12 H21 H1. destruct (Str.startswith s p2) eqn:H2; [| reflexivity].
  destruct (StrFacts.startswith_both s p1 p2 H1 H2); congruence.
Qed.

(** The loop of the Pinecone accessor scans each of its keys on its own. *)
Lemma pinecone_loop (lines : list string) (api_key environment : option string) :
  fold_left pinecone_step lines (api_key, environment)
  = (fold_left (scan_step "PINECONE_API_KEY") lines api_key,
     fold_left (scan_step "PINECONE_ENVIRONMENT") lines environment).
Proof.
  revert api_key environment.
  induction lines as [|l ls IH]; intros api_key environment; [reflexivity |].
  cbn [fold_left]. unfold pinecone_step at 2, scan_step at 2 4.
  destruct (Str.startswith l "PINECONE_API_KEY") eqn:E1.
  - rewrite (startswith_apart l "PINECONE_API_KEY" "PINECONE_ENVIRONMENT")
      by (reflexivity || exact E1).
    apply IH.
  - destruct (Str.startswith l "PINECONE_ENVIRONMENT"); apply IH.
Qed.

(** The loop of the AstraDB accessor scans each of its keys on its own. *)
Lemma astradb_loop (lines : list string)
    (app_token db_id region keyspace : option string) :
  fold_left astradb_step lines (app_token, db_id, region, keyspace)
  = (fold_left (scan_step "ASTRADB_APP_TOKEN") lines app_token,
     fold_left (scan_step "ASTRADB_ID") lines db_id,
     fold_left (scan_step "ASTRADB_REGION") lines region,
     fold_left (scan_step "ASTRADB_KEYSPACE") lines keyspace).
Proof.
  revert app_token db_id region keyspace.
  induction lines as [|l ls IH]; intros app_token db_id region keyspace;
    [reflexivity |].
  cbn [fold_left]. unfold astradb_step at 2, scan_step at 2 4 6 8.
  destruct (Str.startswith l "ASTRADB_APP_TOKEN") eqn:E1.
  { rewrite (startswith_apart l "ASTRADB_APP_TOKEN" "ASTRADB_ID"),
      (startswith_apart l "ASTRADB_APP_TOKEN" "ASTRADB_REGION"),
      (startswith_apart l "ASTRADB_APP_TOKEN" "ASTRADB_KEYSPACE")
      by (reflexivity || exact E1).
    apply IH. }
  destruct (Str.startswith l "ASTRADB_ID") eqn:E2.
  { rewrite (startswith_apart l "ASTRADB_ID" "ASTRADB_REGION"),
      (startswith_apart l "ASTRADB_ID" "ASTRADB_KEYSPACE")
      by (reflexivity || exact E2).
    apply IH. }
  destruct (Str.startswith l "ASTRADB_REGION") eqn:E3.
  { rewrite (startswith_apart l "ASTRADB_REGION" "ASTRADB_KEYSPACE")
      by (reflexivity || exact E3).
    apply IH. }
  destruct (Str.startswith l "ASTRADB_KEYSPACE"); apply IH.
Qed.

(** * The accessors against the table *)

(** Every accessor raises the error of the first requirement the source does
    not meet and otherwise returns the bundle of the table, but for the
    mapping variant of Azure OpenAI called without the API version. *)
Lemma call_outcome (a : accessor) (f : env_file) : call a f = outcome a f.
Proof.
  destruct a as [|d v|d v| | | | | | | | | |i| |c s| | |];
    unfold_accessors; unfold_table;
    try rewrite pinecone_loop; try rewrite astradb_loop;
    repeat match goal with
      | |- context [fold_left (scan_step ?k) ?l None] =>
          change (fold_left (scan_step k) l None) with (last_assigned k l)
      end;
    repeat match goal with b : bool |- _ => destruct b end;
    case_reads; reflexivity.
Qed.

Lemma first_failure_some (rd : string → option string) (reqs : list requirement)
    (r : requirement) :
  In r reqs → passes (kind r) (rd (key r)) = false →
  ∃ r', In r' reqs ∧ passes (kind r') (rd (key r')) = false
        ∧ first_failure rd reqs = Some (message r').
Proof.
  induction reqs as [|r0 reqs IH]; simpl; [contradiction |].
  intros Hin Hr. destruct (passes (kind r0) (rd (key r0))) eqn:E0.
  - destruct Hin as [->|Hin]; [congruence |].
    destruct (IH Hin Hr) as (r' & Hin' & Hr' & Hf). eauto.
  - exists r0. auto.
Qed.

Lemma first_failure_none (rd : string → option string) (reqs : list requirement) :
  (∀ r, In r reqs → passes (kind r) (rd (key r)) = true) →
  first_failure rd reqs = None.
Proof.
  induction reqs as [|r0 reqs IH]; simpl; [reflexivity |].
  intros H. rewrite (H r0) by auto. apply IH. auto.
Qed.

Lemma first_failure_inv (rd : string → option string) (reqs : list requirement)
    (msg : string) :
  first_failure rd reqs = Some msg →
  ∃ r, In r reqs ∧ passes (kind r) (rd (key r)) = false ∧ msg = message r.
Proof.
  induction reqs as [|r0 reqs IH]; simpl; [discriminate |].
  destruct (passes (kind r0) (rd (key r0))) eqn:E0.
  - intros H. destruct (IH H) as (r & Hin & Hr & ->). eauto.
  - intros [= <-]. eauto.
Qed.

Lemma first_failure_ext (rd rd' : string → option string) (reqs : list requirement) :
  (∀ r, In r reqs → rd (key r) = rd' (key r)) →
  first_failure rd reqs = first_failure rd' reqs.
Proof.
  induction reqs as [|r0 reqs IH]; simpl; [reflexivity |].
  intros H. rewrite (H r0) by auto. rewrite IH by auto. reflexivity.
Qed.

(** An accessor raises nothing but the error of one of its requirements that
    the source does not meet, the short unpacking apart. *)
Lemma call_raises (a : accessor) (f : env_file) (e : exn) :
  call a f = Raise e →
  (∃ r, In r (requirements a) ∧ passes (kind r) (read a f (key r)) = false
        ∧ e = AssertionError (message r))
  ∨ unpacks_short a = true.
Proof.
  rewrite call_outcome. unfold outcome.
  destruct (first_failure (read a f) (requirements a)) as [msg|] eqn:E.
  - intros [= <-]. left.
    destruct (first_failure_inv _ _ _ E) as (r & Hin & Hr & ->). eauto.
  - destruct (unpacks_short a); [auto | discriminate].
Qed.

(** * The claims *)

(** ** C1: the mapping variant of Azure OpenAI against the tuple variant *)

(** Without the API version the mapping variant never returns: when the
    tuple variant returns, its three values do not fill the four targets of
    the unpacking. *)
Lemma as_dict_without_api_version
    (config : gmap string (option string)) (d : bool) (t : value) :
  azure_openai_settings_from_dot_env config d false = Ok t →
  azure_openai_settings_from_dot_env_as_dict config d false
  = Raise (ValueError "not enough values to unpack (expected 4, got 3)").
Proof.
  pose (f := only_dotenv config).
  change (call (AzureOpenAI d false) f = Ok t →
          call (AzureOpenAIDict d false) f = Raise
            (ValueError "not enough values to unpack (expected 4, got 3)")).
  rewrite !call_outcome. unfold outcome.
  change (requirements (AzureOpenAIDict d false))
    with (requirements (AzureOpenAI d false)).
  change (read (AzureOpenAIDict d false) f) with (read (AzureOpenAI d false) f).
  destruct (first_failure _ _); [discriminate | reflexivity].
Qed.

(** With the API version the mapping variant is the projection of the tuple
    variant. *)
Lemma as_dict_with_api_version
    (config : gmap string (option string)) (d : bool)
    (deployment api_key endpoint api_version : value) :
  azure_openai_settings_from_dot_env config d true
  = Ok (VTuple [deployment; api_key; endpoint; api_version]) →
  azure_openai_settings_from_dot_env_as_dict config d true
  = Ok (VDict ([("api_key", api_key); ("endpoint", endpoint)]
               ++ optional_field d "deployment_name" deployment
               ++ [("api_version", api_version)])).
Proof.
  unfold azure_openai_settings_from_dot_env_as_dict. intros ->.
  destruct d; reflexivity.
Qed.

(** C1 (the code departs from the claim): on a source with the deployment
    name, the API key and the endpoint, called with [include_deployment=True]
    and [include_api_version=False], the tuple accessor of Azure OpenAI
    returns its three values and the dict accessor raises [ValueError]
    instead of returning the mapping of these values. *)
Theorem C1_as_dict_raises_on_default_flags :
  azure_openai_settings_from_dot_env azure_openai_sample true false
  = Ok (VTuple [VStr "gpt"; VStr "k"; VStr "https://x"])
  ∧ azure_openai_settings_from_dot_env_as_dict azure_openai_sample true false
    = Raise (ValueError "not enough values to unpack (expected 4, got 3)").
Proof. split; vm_compute; reflexivity. Qed.

(** ** C4: the bundle of Azure Key Vault *)

(** Called for the client secret alone, the accessor checks the secret and
    returns the endpoint with the client ID, whatever the source. *)
Lemma key_vault_drops_secret (config : gmap string (option string)) (v : value) :
  azure_key_vault_settings_from_dot_env config false true = Ok v →
  is_not_None (get config "AZURE_KEY_VAULT_CLIENT_SECRET") = true
  ∧ v = VTuple [of_opt (get config "AZURE_KEY_VAULT_ENDPOINT");
                of_opt (get config "AZURE_KEY_VAULT_CLIENT_ID")].
Proof.
  unfold azure_key_vault_settings_from_dot_env.
  destruct (get config "AZURE_KEY_VAULT_ENDPOINT") as [e|]; [| discriminate].
  destruct (get config "AZURE_KEY_VAULT_CLIENT_SECRET") as [s|]; [| discriminate].
  simpl. intros [= <-]. auto.
Qed.

(** C4 (the code departs from the claim): on a source with the endpoint and
    the client secret of Azure Key Vault and no client ID, called with
    [include_client_id=False] and [include_client_secret=True], the accessor
    succeeds and returns the pair of the endpoint and [None]: the validated
    client secret is not in the bundle, and the client ID that was not asked
    for is. *)
Theorem C4_key_vault_bundle_lacks_secret :
  get key_vault_secret_only "AZURE_KEY_VAULT_CLIENT_SECRET" = Some "s3cret"
  ∧ azure_key_vault_settings_from_dot_env key_vault_secret_only false true
    = Ok (VTuple [VStr "https://vault"; VNone]).
Proof. split; vm_compute; reflexivity. Qed.

(** ** C7: the deployment name of Azure OpenAI *)

(** C7: for every source without a value for [AZURE_OPENAI_DEPLOYMENT_NAME],
    whatever its other keys hold, the Azure OpenAI accessor called with
    [include_deployment=True] raises the [AssertionError] whose message names
    the deployment name. *)
Theorem C7_deployment_name_required
    (config : gmap string (option string)) (include_api_version : bool) :
  get config "AZURE_OPENAI_DEPLOYMENT_NAME" = None →
  azure_openai_settings_from_dot_env config true include_api_version
  = Raise (AssertionError "Azure OpenAI deployment name not found in .env file").
Proof.
  intros H. unfold azure_openai_settings_from_dot_env. now rewrite H.
Qed.

Lemma C7_deployment_name_required_witness :
  get azure_openai_no_deployment "AZURE_OPENAI_API_KEY" = Some "k"
  ∧ get azure_openai_no_deployment "AZURE_OPENAI_ENDPOINT" = Some "https://x"
  ∧ azure_openai_settings_from_dot_env azure_openai_no_deployment true false
    = Raise (AssertionError "Azure OpenAI deployment name not found in .env file").
Proof.
  split; [| split]; [vm_compute; reflexivity ..|].
  apply C7_deployment_name_required. vm_compute. reflexivity.
Defined.

(** ** C10: the mapping variant of Azure AI Search *)

(** C10: the dict accessor of Azure AI Search raises an [AssertionError] on
    every source without a value for [AZURE_AISEARCH_INDEX_NAME], also where
    the tuple accessor called without the index name returns the API key and
    the URL; and whenever the dict accessor returns, the result holds the API
    key under ["authentication"], in a mapping of type ["api_key"], next to
    the endpoint and the index name. *)
Theorem C10_aisearch_dict_requires_index_name :
  (∀ config : gmap string (option string),
     get config "AZURE_AISEARCH_INDEX_NAME" = None →
     ∃ msg, azure_aisearch_settings_from_dot_env_as_dict config
            = Raise (AssertionError msg))
  ∧ (∀ (config : gmap string (option string)) (api_key url : string),
       get config "AZURE_AISEARCH_API_KEY" = Some api_key →
       get config "AZURE_AISEARCH_URL" = Some url →
       get config "AZURE_AISEARCH_INDEX_NAME" = None →
       azure_aisearch_settings_from_dot_env config false
       = Ok (VTuple [VStr api_key; VStr url])
       ∧ azure_aisearch_settings_from_dot_env_as_dict config
         = Raise (AssertionError
                    "Azure AI Search index name not found in .env file"))
  ∧ (∀ (config : gmap string (option string)) (v : value),
       azure_aisearch_settings_from_dot_env_as_dict config = Ok v →
       ∃ api_key url index_name,
         get config "AZURE_AISEARCH_API_KEY" = Some api_key
         ∧ get config "AZURE_AISEARCH_URL" = Some url
         ∧ get config "AZURE_AISEARCH_INDEX_NAME" = Some index_name
         ∧ v = VDict [("authentication",
                       VDict [("type", VStr "api_key"); ("key", VStr api_key)]);
                      ("endpoint", VStr url);
                      ("index_name", VStr index_name)]).
Proof.
  split; [| split].
  - intros config H.
    unfold azure_aisearch_settings_from_dot_env_as_dict,
      azure_aisearch_settings_from_dot_env.
    rewrite H.
    destruct (get config "AZURE_AISEARCH_URL"); [| eexists; reflexivity].
    destruct (get config "AZURE_AISEARCH_API_KEY"); eexists; reflexivity.
  - intros config api_key url Hk Hu Hi.
    unfold azure_aisearch_settings_from_dot_env_as_dict,
      azure_aisearch_settings_from_dot_env.
    rewrite Hk, Hu, Hi. split; reflexivity.
  - intros config v.
    unfold azure_aisearch_settings_from_dot_env_as_dict,
      azure_aisearch_settings_from_dot_env.
    destruct (get config "AZURE_AISEARCH_URL") as [url|]; [| discriminate].
    destruct (get config "AZURE_AISEARCH_API_KEY") as [api_key|]; [| discriminate].
    destruct (get config "AZURE_AISEARCH_INDEX_NAME") as [index_name|];
      [| discriminate].
    intros [= <-]. exists api_key, url, index_name. auto.
Qed.

Lemma C10_aisearch_dict_requires_index_name_witness :
  (∃ msg, azure_aisearch_settings_from_dot_env_as_dict aisearch_no_index
          = Raise (AssertionError msg))
  ∧ azure_aisearch_settings_from_dot_env aisearch_no_index false
    = Ok (VTuple [VStr "k"; VStr "https://search"])
  ∧ azure_aisearch_settings_from_dot_env_as_dict aisearch_sample
    = Ok (VDict [("authentication",
                  VDict [("type", VStr "api_key"); ("key", VStr "k")]);
                 ("endpoint", VStr "https://search");
                 ("index_name", VStr "idx")]).
Proof.
  destruct C10_aisearch_dict_requires_index_name as (Hfail & Htuple & Hshape).
  split; [| split].
  - apply Hfail. vm_compute. reflexivity.
  - apply (Htuple aisearch_no_index "k" "https://search"); vm_compute; reflexivity.
  - destruct (Hshape aisearch_sample
                (VDict [("authentication",
                         VDict [("type", VStr "api_key"); ("key", VStr "k")]);
                        ("endpoint", VStr "https://search");
                        ("index_name", VStr "idx")])) as (k & u & i & _);
      vm_compute; reflexivity.
Defined.

(** ** C6 and C5: double quotes around a value *)

Lemma line_value_quoted (k v ws : string) (n m : nat) :
  none_of is_equals k = true →
  no_outer_quote v = true →
  all_of Str.isspace ws = true →
  line_value (assignment k (quoted (S n) (S m) v ws)) = v.
Proof.
  intros Hk Hv Hws. rewrite line_value_assignment by exact Hk.
  now apply unquote_quoted.
Qed.

Lemma assigned_last_last_line (k raw : string) (lines : list string) :
  assigned_last k raw lines → last_line_of k (assignment k raw) lines.
Proof.
  intros (before & after & E & Hafter). exists before, after.
  repeat split; try assumption. apply StrFacts.startswith_append.
Qed.

(** The keys of the line scanners hold no [=]. *)
Lemma line_scanning_key (a : accessor) (r : requirement) :
  line_scanning a = true → In r (requirements a) →
  none_of is_equals (key r) = true ∧ kind r = NonEmpty.
Proof.
  destruct a; try discriminate; intros _ Hin; simpl in Hin;
    repeat (destruct Hin as [<-|Hin]; [split; reflexivity |]);
    contradiction.
Qed.

Lemma read_line_scanning (a : accessor) (f : env_file) (k : string) :
  line_scanning a = true → read a f k = last_assigned k (readlines f).
Proof. unfold read. now intros ->. Qed.

Lemma read_dotenv (a : accessor) (f : env_file) (k : string) :
  line_scanning a = false → read a f k = get (dotenv_values f) k.
Proof. unfold read. now intros ->. Qed.

Lemma truthy_nonempty (v : string) : v ≠ "" → truthy (Some v) = true.
Proof. destruct v; [contradiction | reflexivity]. Qed.

Lemma passes_nonempty (c : check) (v : string) : v ≠ "" → passes c (Some v) = true.
Proof. destruct c; [apply truthy_nonempty | reflexivity]. Qed.

(** C6 (as amended): the parser of the line scanners removes every double
    quote that surrounds the text of a value, not one layer: for every key
    without [=], every value [v] that neither begins nor ends with a double
    quote and any number of quotes on each side (one or more), the line
    yields [v]; so the value written between one pair of quotes yields [v],
    and so does the value written between two. *)
Theorem C6_surrounding_quotes_all_removed (k v ws : string) (n m : nat) :
  none_of is_equals k = true →
  no_outer_quote v = true →
  all_of Str.isspace ws = true →
  line_value (assignment k (quoted (S n) (S m) v ws)) = v.
Proof. apply line_value_quoted. Qed.

Lemma C6_surrounding_quotes_all_removed_witness :
  line_value (assignment "PINECONE_API_KEY" (quoted 1 1 "v" nl)) = "v"
  ∧ line_value (assignment "PINECONE_API_KEY" (quoted 2 2 "v" nl)) = "v".
Proof.
  split.
  - apply (C6_surrounding_quotes_all_removed "PINECONE_API_KEY" "v" nl 0 0);
      reflexivity.
  - apply (C6_surrounding_quotes_all_removed "PINECONE_API_KEY" "v" nl 1 1);
      reflexivity.
Defined.

(** C6 (as stated, refuted): the value [v] written between two layers of
    double quotes yields [v], not [v] between one layer of quotes; the
    Pinecone accessor returns it so. *)
Lemma C6_nested_quotes_not_preserved :
  line_value (assignment "PINECONE_API_KEY" (quoted 2 2 "v" nl)) = "v"
  ∧ line_value (assignment "PINECONE_API_KEY" (quoted 2 2 "v" nl))
    ≠ quoted 1 1 "v" ""
  ∧ pinecone_settings_from_dot_env pinecone_nested_quotes
    = Ok (VTuple [VStr "v"; VStr "e"]).
Proof.
  split; [| split]; [vm_compute; reflexivity | | vm_compute; reflexivity].
  vm_compute. discriminate.
Qed.

(** C5 (as amended): for every non-empty value that neither begins nor ends
    with a double quote, whatever [=] it holds inside, if the source assigns
    it between double quotes to a key of a line-scanning accessor (Pinecone,
    AstraDB) in the last line that begins with that key, and the other keys of
    the accessor have non-empty values, then the accessor returns its bundle
    with exactly that value in the field of the key. *)
Theorem C5_quoted_value_preserved
    (a : accessor) (f : env_file) (k v ws : string) :
  line_scanning a = true →
  In k (map key (requirements a)) →
  v ≠ "" →
  no_outer_quote v = true →
  all_of Str.isspace ws = true →
  assigned_last k (quoted 1 1 v ws) (readlines f) →
  (∀ r, In r (requirements a) → key r ≠ k → truthy (read a f (key r)) = true) →
  call a f = Ok (bundle a (read a f)) ∧ read a f k = Some v.
Proof.
  intros Ha Hk Hv Hq Hws Hline Hothers.
  apply in_map_iff in Hk as (rk & <- & Hrk).
  destruct (line_scanning_key a rk Ha Hrk) as [Hkey _].
  assert (Hread : read a f (key rk) = Some v).
  { rewrite read_line_scanning by exact Ha.
    rewrite (last_assigned_last_line _ _ _ (assigned_last_last_line _ _ _ Hline)).
    f_equal. now apply line_value_quoted. }
  split; [| exact Hread].
  rewrite call_outcome. unfold outcome.
  rewrite first_failure_none.
  - destruct a; try discriminate; reflexivity.
  - intros r Hr. destruct (line_scanning_key a r Ha Hr) as [_ ->]. simpl.
    destruct (string_dec (key r) (key rk)) as [E|E].
    + rewrite E, Hread. now apply truthy_nonempty.
    + now apply Hothers.
Qed.

Lemma C5_quoted_value_preserved_witness :
  call Pinecone (only_lines pinecone_quoted)
  = Ok (VTuple [VStr "Server=db;Password=p"; VStr "e"])
  ∧ read Pinecone (only_lines pinecone_quoted) "PINECONE_API_KEY"
    = Some "Server=db;Password=p".
Proof.
  apply (C5_quoted_value_preserved Pinecone (only_lines pinecone_quoted)
           "PINECONE_API_KEY" "Server=db;Password=p" nl).
  - reflexivity.
  - simpl. left. reflexivity.
  - discriminate.
  - reflexivity.
  - reflexivity.
  - exists [], [assignment "PINECONE_ENVIRONMENT" ("e" +:+ nl)].
    split; [reflexivity |]. repeat constructor.
  - intros r [<-|[<-|[]]] Hne; [contradiction | reflexivity].
Defined.

(** C5 (as stated, refuted): the value [a=b] followed by a double quote holds
    an internal [=]; stored between double quotes under [PINECONE_API_KEY],
    it comes back as [a=b], without its last character. *)
Lemma C5_trailing_quote_lost :
  pinecone_settings_from_dot_env pinecone_quote_inside
  = Ok (VTuple [VStr "a=b"; VStr "e"])
  ∧ "a=b" ≠ "a=b" +:+ quotes 1.
Proof. split; [vm_compute; reflexivity | vm_compute; discriminate]. Qed.

(** ** C3: the bundle of a complete source *)

Lemma holds_read (a : accessor) (f : env_file) (r : requirement) (v : string) :
  In r (requirements a) → holds a f (key r) v → read a f (key r) = Some v.
Proof.
  intros Hin. unfold holds. destruct (line_scanning a) eqn:Ha.
  - intros (raw & Hline & ->).
    destruct (line_scanning_key a r Ha Hin) as [Hkey _].
    rewrite read_line_scanning by exact Ha.
    rewrite (last_assigned_last_line _ _ _ (assigned_last_last_line _ _ _ Hline)).
    f_equal. now apply line_value_assignment.
  - intros H. rewrite read_dotenv by exact Ha. unfold get. now rewrite H.
Qed.

(** Away from the defects that C1, C3 and C4 report: for every accessor but
    the two calls of C1 and C4, given a source that holds a non-empty value
    for each required key (for the line scanners: in the last line that
    begins with the name of the key, the value being the text after the first
    [=] without its surrounding blanks and double quotes), the accessor
    returns the result bundle whose fields are the values of the source; so
    the OpenAI accessor returns the pair of [sk-abc123] and [None] where
    [OPENAI_API_KEY] is mapped to [sk-abc123] and [OPENAI_ORG_ID] is
    absent. *)
Lemma bundle_of_source_values :
  (∀ (a : accessor) (f : env_file) (src : string → string),
     short_of_a_field a = false →
     (∀ r, In r (requirements a) →
           holds a f (key r) (src (key r)) ∧ src (key r) ≠ "") →
     call a f = Ok (bundle a (read a f))
     ∧ ∀ r, In r (requirements a) → read a f (key r) = Some (src (key r)))
  ∧ (∀ config : gmap string (option string),
       config !! "OPENAI_API_KEY" = Some (Some "sk-abc123") →
       config !! "OPENAI_ORG_ID" = None →
       openai_settings_from_dot_env config = Ok (VTuple [VStr "sk-abc123"; VNone])).
Proof.
  split.
  - intros a f src Ha Hsrc.
    assert (Hread : ∀ r, In r (requirements a) →
                         read a f (key r) = Some (src (key r))).
    { intros r Hr. apply holds_read; [exact Hr | now apply Hsrc]. }
    split; [| exact Hread].
    rewrite call_outcome. unfold outcome. rewrite first_failure_none.
    + destruct a as [|d v|d [|]| | | | | | | | | |i| |c s| | |];
        try reflexivity; discriminate.
    + intros r Hr. rewrite (Hread r Hr). apply passes_nonempty. now apply Hsrc.
  - intros config Hkey Horg. unfold openai_settings_from_dot_env, get.
    now rewrite Hkey, Horg.
Qed.

Lemma bundle_of_source_values_example :
  call Pinecone (only_lines pinecone_quoted)
  = Ok (VTuple [VStr "Server=db;Password=p"; VStr "e"])
  ∧ openai_settings_from_dot_env openai_sample
    = Ok (VTuple [VStr "sk-abc123"; VNone]).
Proof.
  destruct bundle_of_source_values as [Hall Hopenai]. split.
  - apply (Hall Pinecone (only_lines pinecone_quoted)
             (λ k, if String.eqb k "PINECONE_API_KEY"
                   then "Server=db;Password=p" else "e")).
    + reflexivity.
    + intros r [<-|[<-|[]]]; (split; [| discriminate]).
      * exists (quoted 1 1 "Server=db;Password=p" nl). split; [| reflexivity].
        exists [], [assignment "PINECONE_ENVIRONMENT" ("e" +:+ nl)].
        split; [reflexivity |]. repeat constructor.
      * exists ("e" +:+ nl). split; [| reflexivity].
        exists [assignment "PINECONE_API_KEY" (quoted 1 1 "Server=db;Password=p" nl)], [].
        split; [reflexivity | constructor].
  - apply Hopenai; vm_compute; reflexivity.
Defined.

(** C3 (the code departs from the claim): the source assigns the non-empty
    values [a] to [PINECONE_API_KEY] and [e] to [PINECONE_ENVIRONMENT], and a
    later line assigns [b] to [PINECONE_API_KEY_BACKUP]; the Pinecone
    accessor returns [b] as the API key, not the value [a] of the source. *)
Theorem C3_pinecone_returns_other_key :
  In (assignment "PINECONE_API_KEY" ("a" +:+ nl)) pinecone_with_backup
  ∧ In (assignment "PINECONE_ENVIRONMENT" ("e" +:+ nl)) pinecone_with_backup
  ∧ pinecone_settings_from_dot_env pinecone_with_backup
    = Ok (VTuple [VStr "b"; VStr "e"])
  ∧ pinecone_settings_from_dot_env pinecone_with_backup
    ≠ Ok (VTuple [VStr "a"; VStr "e"]).
Proof.
  split; [| split; [| split]].
  - simpl. auto.
  - simpl. auto.
  - vm_compute. reflexivity.
  - vm_compute. discriminate.
Qed.

(** ** C2: a missing required value *)

Lemma requirement_eq_dec (r r' : requirement) : {r = r'} + {r ≠ r'}.
Proof.
  decide equality; try apply string_dec. decide equality.
Defined.

Lemma lacks_read (a : accessor) (f : env_file) (k : string) :
  lacks a f k → read a f k = None.
Proof.
  unfold lacks. destruct (line_scanning a) eqn:Ha; intros H.
  - rewrite read_line_scanning by exact Ha. now apply last_assigned_none.
  - now rewrite read_dotenv by exact Ha.
Qed.

Lemma misses_fails (a : accessor) (f : env_file) (r : requirement) :
  In r (requirements a) → misses a f r →
  passes (kind r) (read a f (key r)) = false.
Proof.
  intros Hin [Hlacks | [Hkind Hempty]].
  - rewrite (lacks_read _ _ _ Hlacks). now destruct (kind r).
  - rewrite (holds_read _ _ _ _ Hin Hempty), Hkind. reflexivity.
Qed.

Lemma meets_passes (a : accessor) (f : env_file) (r : requirement) :
  In r (requirements a) → meets a f r →
  passes (kind r) (read a f (key r)) = true.
Proof.
  intros Hin (v & Hv & Hne). rewrite (holds_read _ _ _ _ Hin Hv).
  destruct (kind r); [apply truthy_nonempty; now apply Hne | reflexivity].
Qed.

(** C2 (as amended): for every accessor and every key it requires under its
    flags, if the source has no value for the key (the mapping gives [None];
    for the line scanners, no line begins with the key), or holds the empty
    string for it where the accessor checks the key for truth (for the line
    scanners, in the assignment of the key that no line beginning with the
    key follows), then the accessor raises an [AssertionError] whose message
    is that of one of its required keys, and that of the missing key itself
    when the source provides the other required keys. A key that is only
    checked against [None] is accepted with the empty string: every accessor
    returns once each required key has a value, non-empty where the key is
    checked for truth (the dict accessor of Azure OpenAI called without the
    API version apart, see C1); so the Bing and the Redis accessors return
    the empty string. *)
Theorem C2_missing_value_raises :
  (∀ (a : accessor) (f : env_file) (r : requirement),
     In r (requirements a) → misses a f r →
     (∃ r', In r' (requirements a)
            ∧ call a f = Raise (AssertionError (message r')))
     ∧ ((∀ r', In r' (requirements a) → r' ≠ r → meets a f r') →
        call a f = Raise (AssertionError (message r))))
  ∧ (∀ (a : accessor) (f : env_file),
       unpacks_short a = false →
       (∀ r, In r (requirements a) → meets a f r) →
       ∃ v, call a f = Ok v)
  ∧ (∀ config : gmap string (option string),
       get config "BING_API_KEY" = Some "" →
       bing_search_settings_from_dot_env config = Ok (VStr ""))
  ∧ (∀ config : gmap string (option string),
       get config "REDIS_CONNECTION_STRING" = Some "" →
       redis_settings_from_dot_env config = Ok (VStr "")).
Proof.
  split; [| split; [| split]].
  - intros a f r Hin Hmiss.
    pose proof (misses_fails a f r Hin Hmiss) as Hr.
    destruct (first_failure_some _ _ _ Hin Hr) as (r' & Hin' & Hr' & Hf).
    assert (Hcall : call a f = Raise (AssertionError (message r'))).
    { rewrite call_outcome. unfold outcome. now rewrite Hf. }
    split; [eauto |].
    intros Hothers. destruct (requirement_eq_dec r' r) as [<-|Hne];
      [exact Hcall |].
    rewrite (meets_passes a f r' Hin' (Hothers r' Hin' Hne)) in Hr'.
    discriminate.
  - intros a f Hshort Hmeets. exists (bundle a (read a f)).
    rewrite call_outcome. unfold outcome. rewrite Hshort.
    rewrite first_failure_none; [reflexivity |].
    intros r Hr. now apply meets_passes, Hmeets.
  - intros config H. unfold bing_search_settings_from_dot_env. now rewrite H.
  - intros config H. unfold redis_settings_from_dot_env. now rewrite H.
Qed.

Lemma C2_missing_value_raises_witness :
  call OpenAI (only_dotenv ∅)
  = Raise (AssertionError "OpenAI API key not found in .env file")
  ∧ call Pinecone
      (only_lines [assignment "PINECONE_API_KEY" ("a" +:+ nl);
                   assignment "PINECONE_ENVIRONMENT" nl])
    = Raise (AssertionError "Pinecone environment not found in .env file")
  ∧ (∃ v, call Weaviate (only_dotenv {[ "WEAVIATE_URL" := Some "" ]}) = Ok v)
  ∧ bing_search_settings_from_dot_env bing_empty = Ok (VStr "")
  ∧ redis_settings_from_dot_env redis_empty = Ok (VStr "").
Proof.
  destruct C2_missing_value_raises as (Hraise & Hreturn & Hbing & Hredis).
  split; [| split; [| split; [| split]]].
  - apply (Hraise OpenAI (only_dotenv ∅)
             {| key := "OPENAI_API_KEY"; kind := NonEmpty;
                message := "OpenAI API key not found in .env file" |}).
    + simpl. left. reflexivity.
    + left. reflexivity.
    + intros r' [<-|[]] Hne. contradiction.
  - apply (Hraise Pinecone
             (only_lines [assignment "PINECONE_API_KEY" ("a" +:+ nl);
                          assignment "PINECONE_ENVIRONMENT" nl])
             {| key := "PINECONE_ENVIRONMENT"; kind := NonEmpty;
                message := "Pinecone environment not found in .env file" |}).
    + simpl. right. left. reflexivity.
    + right. split; [reflexivity |]. exists nl. split; [| reflexivity].
      exists [assignment "PINECONE_API_KEY" ("a" +:+ nl)], [].
      split; [reflexivity | constructor].
    + intros r' [<-|[<-|[]]] Hne; [| contradiction].
      exists "a". split; [| discriminate].
      exists ("a" +:+ nl). split; [| reflexivity].
      exists [], [assignment "PINECONE_ENVIRONMENT" nl].
      split; [reflexivity |]. repeat constructor.
  - apply Hreturn; [reflexivity |].
    intros r [<-|[]]. exists "". split; [| discriminate].
    vm_compute. reflexivity.
  - apply Hbing. vm_compute. reflexivity.
  - apply Hredis. vm_compute. reflexivity.
Defined.

(** C2 (as stated, refuted): with [BING_API_KEY] present and empty the Bing
    accessor returns the empty string, and so does the Redis accessor with
    [REDIS_CONNECTION_STRING] present and empty; neither raises. *)
Lemma C2_empty_value_accepted :
  bing_empty !! "BING_API_KEY" = Some (Some "")
  ∧ bing_search_settings_from_dot_env bing_empty = Ok (VStr "")
  ∧ redis_empty !! "REDIS_CONNECTION_STRING" = Some (Some "")
  ∧ redis_settings_from_dot_env redis_empty = Ok (VStr "").
Proof. repeat split; vm_compute; reflexivity. Qed.

(** ** C8: optional fields switched off *)

Lemma get_delete_ne (config : gmap string (option string)) (k k' : string) :
  k ≠ k' → get (delete k config) k' = get config k'.
Proof. intros Hne. unfold get. now rewrite lookup_delete_ne. Qed.

Lemma switched_off_not_required (a : accessor) (k : string) (r : requirement) :
  switched_off a k → In r (requirements a) → key r ≠ k.
Proof.
  intros Hoff Hin. destruct Hoff as [v|d| |s|c];
    repeat match goal with b : bool |- _ => destruct b end;
    simpl in Hin;
    repeat (destruct Hin as [<-|Hin]; [discriminate |]);
    contradiction.
Qed.

Lemma switched_off_dotenv (a : accessor) (k : string) :
  switched_off a k → line_scanning a = false ∧ unpacks_short a = false.
Proof. intros []; split; reflexivity. Qed.

(** C8: for every accessor and every optional field switched off by its flag
    (Azure OpenAI: deployment name, API version; Azure AI Search: index name;
    Azure Key Vault: client ID, client secret), the key of the field is not
    among the required keys; if the source meets the requirements of the
    call, the call succeeds on the source without any binding of that key;
    and on any source an error raised by the call is that of a required key,
    never that of the key switched off. *)
Theorem C8_switched_off_key_not_required
    (a : accessor) (k : string) (f : env_file) :
  switched_off a k →
  ¬ In k (map key (requirements a))
  ∧ ((∀ r, In r (requirements a) → passes (kind r) (read a f (key r)) = true) →
     get (dotenv_values (without k f)) k = None
     ∧ ∃ v, call a (without k f) = Ok v)
  ∧ (∀ e, call a f = Raise e →
          ∃ r, In r (requirements a) ∧ key r ≠ k
               ∧ e = AssertionError (message r)).
Proof.
  intros Hoff. destruct (switched_off_dotenv a k Hoff) as [Hdot Hshort].
  split; [| split].
  - intros Hin. apply in_map_iff in Hin as (r & Hk & Hr).
    now apply (switched_off_not_required a k r Hoff Hr).
  - intros Hreq. split.
    { unfold get, without. simpl. now rewrite lookup_delete_eq. }
    exists (bundle a (read a (without k f))).
    rewrite call_outcome. unfold outcome. rewrite Hshort.
    rewrite first_failure_none; [reflexivity |].
    intros r Hr. rewrite <- (Hreq r Hr). f_equal.
    rewrite !read_dotenv by exact Hdot. unfold without. simpl.
    apply get_delete_ne. intros E. symmetry in E.
    now apply (switched_off_not_required a k r Hoff Hr).
  - intros e He. destruct (call_raises a f e He) as [(r & Hr & _ & ->)|Hs].
    + exists r. split; [exact Hr | split; [| reflexivity]].
      now apply (switched_off_not_required a k r Hoff Hr).
    + congruence.
Qed.

Lemma C8_switched_off_key_not_required_witness :
  get (dotenv_values
         (without "AZURE_OPENAI_DEPLOYMENT_NAME" (only_dotenv azure_openai_sample)))
      "AZURE_OPENAI_DEPLOYMENT_NAME" = None
  ∧ ∃ v, call (AzureOpenAI false false)
           (without "AZURE_OPENAI_DEPLOYMENT_NAME" (only_dotenv azure_openai_sample))
         = Ok v.
Proof.
  apply (C8_switched_off_key_not_required (AzureOpenAI false false)
           "AZURE_OPENAI_DEPLOYMENT_NAME" (only_dotenv azure_openai_sample)
           (off_deployment false)).
  intros r [<-|[<-|[]]]; vm_compute; reflexivity.
Defined.

(** ** C9: keys matched by prefix *)

(** C9: the Pinecone accessor matches its keys by prefix: a line that assigns
    a longer key, such as [PINECONE_API_KEY_BACKUP], begins with
    [PINECONE_API_KEY]; every line that begins so is parsed into [api_key];
    for every source, the loop leaves in [api_key] the
    value parsed from the last line that begins with [PINECONE_API_KEY],
    whatever key that line assigns, and the accessor returns that value when
    it and the environment are non-empty. *)
Theorem C9_prefix_match_last_line_wins :
  (∀ rest : string,
     Str.startswith ("PINECONE_API_KEY" +:+ rest) "PINECONE_API_KEY" = true)
  ∧ (∀ (api_key environment : option string) (line : string),
       Str.startswith line "PINECONE_API_KEY" = true →
       pinecone_step (api_key, environment) line
       = (Some (line_value line), environment))
  ∧ (∀ (lines : list string) (line : string),
       last_line_of "PINECONE_API_KEY" line lines →
       fst (fold_left pinecone_step lines (None, None)) = Some (line_value line)
       ∧ ∀ e, line_value line ≠ "" →
              last_assigned "PINECONE_ENVIRONMENT" lines = Some e → e ≠ "" →
              pinecone_settings_from_dot_env lines
              = Ok (VTuple [VStr (line_value line); VStr e])).
Proof.
  split; [intros rest; apply StrFacts.startswith_append |].
  split; [intros api_key environment line H; unfold pinecone_step; now rewrite H |].
  intros lines line Hlast.
  pose proof (last_assigned_last_line _ _ _ Hlast) as Hkey.
  split.
  - rewrite pinecone_loop. exact Hkey.
  - intros e Hv He Hne. unfold pinecone_settings_from_dot_env.
    rewrite pinecone_loop.
    change (fold_left (scan_step "PINECONE_API_KEY") lines None)
      with (last_assigned "PINECONE_API_KEY" lines).
    change (fold_left (scan_step "PINECONE_ENVIRONMENT") lines None)
      with (last_assigned "PINECONE_ENVIRONMENT" lines).
    rewrite Hkey, He.
    destruct (line_value line); [contradiction |].
    destruct e; [contradiction | reflexivity].
Qed.

Lemma C9_prefix_match_last_line_wins_witness :
  fst (fold_left pinecone_step pinecone_with_backup (None, None)) = Some "b"
  ∧ pinecone_settings_from_dot_env pinecone_with_backup
    = Ok (VTuple [VStr "b"; VStr "e"]).
Proof.
  destruct C9_prefix_match_last_line_wins as (_ & _ & Hlast).
  destruct (Hlast pinecone_with_backup
              (assignment "PINECONE_API_KEY_BACKUP" ("b" +:+ nl))) as [Hvar Hret].
  - exists [assignment "PINECONE_API_KEY" ("a" +:+ nl);
            assignment "PINECONE_ENVIRONMENT" ("e" +:+ nl)], [].
    split; [reflexivity |]. split; [reflexivity | constructor].
  - split; [exact Hvar |].
    apply (Hret "e"); [discriminate | reflexivity | discriminate].
Defined.

(** * Further properties of the accessors *)

Lemma first_failure_none_inv (rd : string → option string)
    (reqs : list requirement) :
  first_failure rd reqs = None →
  ∀ r, In r reqs → passes (kind r) (rd (key r)) = true.
Proof.
  induction reqs as [|r0 reqs IH]; simpl; [contradiction |].
  destruct (passes (kind r0) (rd (key r0))) eqn:E0; [| discriminate].
  intros H r [<-|Hr]; [exact E0 | now apply IH].
Qed.

Lemma first_failure_first (rd : string → option string)
    (before after : list requirement) (r : requirement) :
  (∀ r', In r' before → passes (kind r') (rd (key r')) = true) →
  passes (kind r) (rd (key r)) = false →
  first_failure rd (before ++ r :: after) = Some (message r).
Proof.
  intros Hbefore Hr. induction before as [|r0 before IH]; simpl.
  - now rewrite Hr.
  - rewrite (Hbefore r0) by (now left). apply IH.
    intros r' Hr'. apply Hbefore. now right.
Qed.

(** ** The order of the checks *)

(** X1: when several required values are missing, the error an accessor
    raises is that of the first requirement, in the order of its [assert]
    statements, that the source does not meet. *)
Theorem X1_first_unmet_requirement_reported
    (a : accessor) (f : env_file) (before after : list requirement)
    (r : requirement) :
  requirements a = before ++ r :: after →
  (∀ r', In r' before → passes (kind r') (read a f (key r')) = true) →
  passes (kind r) (read a f (key r)) = false →
  call a f = Raise (AssertionError (message r)).
Proof.
  intros Hreq Hbefore Hr. rewrite call_outcome. unfold outcome.
  rewrite Hreq. now rewrite (first_failure_first _ _ _ _ Hbefore Hr).
Qed.

Lemma X1_first_unmet_requirement_reported_witness :
  get ∅ "AZURE_AISEARCH_API_KEY" = None
  ∧ azure_aisearch_settings_from_dot_env ∅ true
    = Raise (AssertionError "Azure AI Search URL not found in .env file").
Proof.
  split; [reflexivity |].
  apply (X1_first_unmet_requirement_reported (AzureAISearch true) (only_dotenv ∅)
           []
           [ {| key := "AZURE_AISEARCH_API_KEY"; kind := Present;
                message := "Azure AI Search API key not found in .env file" |};
             {| key := "AZURE_AISEARCH_INDEX_NAME"; kind := Present;
                message := "Azure AI Search index name not found in .env file" |} ]
           {| key := "AZURE_AISEARCH_URL"; kind := Present;
              message := "Azure AI Search URL not found in .env file" |}).
  - reflexivity.
  - intros r' [].
  - reflexivity.
Defined.

Lemma last_assigned_cases (k : string) (lines : list string) :
  (last_assigned k lines = None
   ∧ Forall (λ l, Str.startswith l k = false) lines)
  ∨ (∃ line, last_line_of k line lines
             ∧ last_assigned k lines = Some (line_value line)).
Proof.
  induction lines as [|x lines IH] using rev_ind.
  - left. split; [reflexivity | constructor].
  - unfold last_assigned in *. rewrite fold_left_app. simpl.
    unfold scan_step at 1 3. destruct (Str.startswith x k) eqn:Ex.
    + right. exists x. split; [| reflexivity].
      exists lines, []. repeat split; [exact Ex | constructor].
    + destruct IH as [[Hnone Hall] | (line & Hlast & Hsome)].
      * left. split; [exact Hnone |].
        apply Forall_app. split; [exact Hall | repeat constructor; exact Ex].
      * right. exists line. split; [| exact Hsome].
        destruct Hlast as (before & after & -> & Hline & Hafter).
        exists before, (after ++ [x]). rewrite <- app_assoc. simpl.
        repeat split; [exact Hline |].
        apply Forall_app. split; [exact Hafter | repeat constructor; exact Ex].
Qed.

Lemma finds_read (a : accessor) (f : env_file) (k v : string) :
  finds a f k v ↔ read a f k = Some v.
Proof.
  unfold finds. destruct (line_scanning a) eqn:Ha.
  - rewrite read_line_scanning by exact Ha. split.
    + intros (line & Hlast & <-). now apply last_assigned_last_line.
    + intros Hread.
      destruct (last_assigned_cases k (readlines f))
        as [[Hnone _] | (line & Hlast & Hsome)]; [congruence |].
      exists line. split; [exact Hlast | congruence].
  - now rewrite read_dotenv by exact Ha.
Qed.

Lemma passes_finds (a : accessor) (f : env_file) (r : requirement) :
  passes (kind r) (read a f (key r)) = true
  ↔ ∃ v, finds a f (key r) v ∧ (kind r = NonEmpty → v ≠ "").
Proof.
  split.
  - destruct (read a f (key r)) as [v|] eqn:E;
      [| destruct (kind r); discriminate].
    intros Hp. exists v. split; [now apply finds_read |].
    intros Hk ->. rewrite Hk in Hp. discriminate.
  - intros (v & Hv & Hne). apply finds_read in Hv. rewrite Hv.
    destruct (kind r); [apply truthy_nonempty; now apply Hne | reflexivity].
Qed.

(** X2: an accessor returns exactly when it finds, for every key it
    requires, a value that passes the check of the key: any value for a key
    checked against [None], a non-empty value for a key checked for truth;
    the value it finds is the one of the key in the mapping or, for the line
    scanners, the one parsed from the last line that begins with the key,
    whatever key that line assigns. The dict accessor of Azure OpenAI called
    without the API version is apart: it never returns. *)
Theorem X2_returns_iff_requirements_met (a : accessor) (f : env_file) :
  (∃ v, call a f = Ok v)
  ↔ (unpacks_short a = false
     ∧ ∀ r, In r (requirements a) →
            ∃ v, finds a f (key r) v ∧ (kind r = NonEmpty → v ≠ "")).
Proof.
  rewrite call_outcome. unfold outcome. split.
  - intros [v Hv].
    destruct (first_failure (read a f) (requirements a)) eqn:E; [discriminate |].
    destruct (unpacks_short a); [discriminate |].
    split; [reflexivity |].
    intros r Hr. apply passes_finds. now apply (first_failure_none_inv _ _ E).
  - intros [Hs Hreq]. rewrite first_failure_none, Hs; [eauto |].
    intros r Hr. now apply passes_finds, Hreq.
Qed.

Lemma X2_returns_iff_requirements_met_witness :
  (∃ v, call OpenAI (only_dotenv openai_sample) = Ok v)
  ∧ (∃ v, call Pinecone
            (only_lines [assignment "PINECONE_API_KEY_BACKUP" ("b" +:+ nl);
                         assignment "PINECONE_ENVIRONMENT" ("e" +:+ nl)])
          = Ok v).
Proof.
  split.
  - apply (proj2 (X2_returns_iff_requirements_met OpenAI
                    (only_dotenv openai_sample))).
    split; [reflexivity |].
    intros r [<-|[]]. exists "sk-abc123". split; [| discriminate].
    vm_compute. reflexivity.
  - apply (proj2 (X2_returns_iff_requirements_met Pinecone
                    (only_lines
                       [assignment "PINECONE_API_KEY_BACKUP" ("b" +:+ nl);
                        assignment "PINECONE_ENVIRONMENT" ("e" +:+ nl)]))).
    split; [reflexivity |].
    intros r [<-|[<-|[]]].
    + exists "b". split; [| discriminate].
      exists (assignment "PINECONE_API_KEY_BACKUP" ("b" +:+ nl)).
      split; [| reflexivity].
      exists [], [assignment "PINECONE_ENVIRONMENT" ("e" +:+ nl)].
      split; [reflexivity |]. split; [reflexivity | repeat constructor].
    + exists "e". split; [| discriminate].
      exists (assignment "PINECONE_ENVIRONMENT" ("e" +:+ nl)).
      split; [| reflexivity].
      exists [assignment "PINECONE_API_KEY_BACKUP" ("b" +:+ nl)], [].
      split; [reflexivity |]. split; [reflexivity | constructor].
Defined.

(** ** The flags of the optional fields *)

Lemma get_insert_ne (config : gmap string (option string)) (k k' : string)
    (x : option string) :
  k ≠ k' → get (<[k:=x]> config) k' = get config k'.
Proof. intros Hne. unfold get. now rewrite lookup_insert_ne. Qed.

(** X3: three of the flags switch their key off altogether: without
    [include_api_version] the result of the Azure OpenAI accessor, value or
    error, is the same whatever the source binds to
    [AZURE_OPENAI_API_VERSION]; so it is for the Azure AI Search accessor and
    [AZURE_AISEARCH_INDEX_NAME] without [include_index_name], and for the
    Azure Key Vault accessor and [AZURE_KEY_VAULT_CLIENT_SECRET] without
    [include_client_secret]. *)
Theorem X3_switched_off_key_ignored :
  (∀ (config : gmap string (option string)) (d : bool) (x : option string),
     azure_openai_settings_from_dot_env
       (<["AZURE_OPENAI_API_VERSION" := x]> config) d false
     = azure_openai_settings_from_dot_env config d false)
  ∧ (∀ (config : gmap string (option string)) (x : option string),
       azure_aisearch_settings_from_dot_env
         (<["AZURE_AISEARCH_INDEX_NAME" := x]> config) false
       = azure_aisearch_settings_from_dot_env config false)
  ∧ (∀ (config : gmap string (option string)) (c : bool) (x : option string),
       azure_key_vault_settings_from_dot_env
         (<["AZURE_KEY_VAULT_CLIENT_SECRET" := x]> config) c false
       = azure_key_vault_settings_from_dot_env config c false).
Proof.
  split; [| split].
  - intros config d x. unfold azure_openai_settings_from_dot_env.
    rewrite !get_insert_ne by discriminate. reflexivity.
  - intros config x. unfold azure_aisearch_settings_from_dot_env.
    rewrite !get_insert_ne by discriminate. reflexivity.
  - intros config c x. unfold azure_key_vault_settings_from_dot_env.
    rewrite !get_insert_ne by discriminate.
    rewrite andb_false_r. reflexivity.
Qed.

(** X4: [include_deployment] only switches the check of the deployment name:
    on a source that binds [AZURE_OPENAI_DEPLOYMENT_NAME] to a value, the
    Azure OpenAI accessor gives the same result, value or error, with and
    without the flag, so the deployment name is returned also when the flag
    is off. *)
Theorem X4_deployment_flag_only_checks
    (config : gmap string (option string)) (include_api_version : bool) :
  is_not_None (get config "AZURE_OPENAI_DEPLOYMENT_NAME") = true →
  azure_openai_settings_from_dot_env config false include_api_version
  = azure_openai_settings_from_dot_env config true include_api_version.
Proof.
  intros H. unfold azure_openai_settings_from_dot_env. now rewrite H.
Qed.

Lemma X4_deployment_flag_only_checks_witness :
  azure_openai_settings_from_dot_env azure_openai_sample false false
  = Ok (VTuple [VStr "gpt"; VStr "k"; VStr "https://x"])
  ∧ azure_openai_settings_from_dot_env azure_openai_sample false false
    = azure_openai_settings_from_dot_env azure_openai_sample true false.
Proof.
  split; [vm_compute; reflexivity |].
  apply X4_deployment_flag_only_checks. vm_compute. reflexivity.
Defined.

(** X5: without [include_client_secret], [include_client_id] only switches
    the check of the client ID: on a source that binds
    [AZURE_KEY_VAULT_CLIENT_ID] to a value, the Azure Key Vault accessor
    gives the same result with and without the flag, the client ID being
    returned in both cases. *)
Theorem X5_client_id_flag_only_checks (config : gmap string (option string)) :
  is_not_None (get config "AZURE_KEY_VAULT_CLIENT_ID") = true →
  azure_key_vault_settings_from_dot_env config false false
  = azure_key_vault_settings_from_dot_env config true false.
Proof.
  intros H. unfold azure_key_vault_settings_from_dot_env. now rewrite H.
Qed.

Lemma X5_client_id_flag_only_checks_witness :
  azure_key_vault_settings_from_dot_env key_vault_sample false false
  = Ok (VTuple [VStr "https://vault"; VStr "id"])
  ∧ azure_key_vault_settings_from_dot_env key_vault_sample false false
    = azure_key_vault_settings_from_dot_env key_vault_sample true false.
Proof.
  split; [vm_compute; reflexivity |].
  apply X5_client_id_flag_only_checks. vm_compute. reflexivity.
Defined.

(** X6: whenever the Azure AI Search accessor returns with the index name,
    it returns without it too, and the pair it returns then is the API key
    and the URL of the triple. *)
Theorem X6_aisearch_index_name_extends_pair
    (config : gmap string (option string)) (t : value) :
  azure_aisearch_settings_from_dot_env config true = Ok t →
  ∃ api_key url index_name,
    t = VTuple [VStr api_key; VStr url; VStr index_name]
    ∧ azure_aisearch_settings_from_dot_env config false
      = Ok (VTuple [VStr api_key; VStr url]).
Proof.
  unfold azure_aisearch_settings_from_dot_env.
  destruct (get config "AZURE_AISEARCH_URL") as [url|]; [| discriminate].
  destruct (get config "AZURE_AISEARCH_API_KEY") as [api_key|]; [| discriminate].
  destruct (get config "AZURE_AISEARCH_INDEX_NAME") as [index_name|];
    [| discriminate].
  intros [= <-]. exists api_key, url, index_name. split; reflexivity.
Qed.

Lemma X6_aisearch_index_name_extends_pair_witness :
  ∃ api_key url index_name,
    VTuple [VStr "k"; VStr "https://search"; VStr "idx"]
    = VTuple [VStr api_key; VStr url; VStr index_name]
    ∧ azure_aisearch_settings_from_dot_env aisearch_sample false
      = Ok (VTuple [VStr api_key; VStr url]).
Proof.
  apply (X6_aisearch_index_name_extends_pair aisearch_sample).
  vm_compute. reflexivity.
Defined.

(** ** The shape of the results *)

(** X7: whenever the Azure OpenAI accessor returns, the result is a tuple of
    strings, never [None]: the deployment name (the empty string when the
    source has none), the non-empty API key, the non-empty endpoint and, with
    [include_api_version] only, the API version as a fourth component. *)
Theorem X7_azure_openai_tuple_of_strings
    (config : gmap string (option string)) (d v : bool) (t : value) :
  azure_openai_settings_from_dot_env config d v = Ok t →
  ∃ api_key endpoint,
    get config "AZURE_OPENAI_API_KEY" = Some api_key ∧ api_key ≠ ""
    ∧ get config "AZURE_OPENAI_ENDPOINT" = Some endpoint ∧ endpoint ≠ ""
    ∧ t = VTuple
            ([VStr (or_ (get config "AZURE_OPENAI_DEPLOYMENT_NAME") "");
              VStr api_key; VStr endpoint]
             ++ (if v then [VStr (or_ (get config "AZURE_OPENAI_API_VERSION") "")]
                 else [])).
Proof.
  unfold azure_openai_settings_from_dot_env.
  destruct (get config "AZURE_OPENAI_API_KEY") as [[|c1 k]|];
    destruct (get config "AZURE_OPENAI_ENDPOINT") as [[|c2 e]|];
    destruct (get config "AZURE_OPENAI_DEPLOYMENT_NAME") as [dep|];
    destruct (get config "AZURE_OPENAI_API_VERSION") as [ver|];
    destruct d, v; simpl; try discriminate;
    intros [= <-]; exists (String c1 k), (String c2 e);
    repeat split; discriminate.
Qed.

Lemma X7_azure_openai_tuple_of_strings_witness :
  ∃ api_key endpoint,
    get azure_openai_no_deployment "AZURE_OPENAI_API_KEY" = Some api_key
    ∧ api_key ≠ ""
    ∧ get azure_openai_no_deployment "AZURE_OPENAI_ENDPOINT" = Some endpoint
    ∧ endpoint ≠ ""
    ∧ VTuple [VStr ""; VStr "k"; VStr "https://x"]
      = VTuple
          ([VStr (or_ (get azure_openai_no_deployment
                         "AZURE_OPENAI_DEPLOYMENT_NAME") "");
            VStr api_key; VStr endpoint] ++ []).
Proof.
  apply (X7_azure_openai_tuple_of_strings azure_openai_no_deployment false false).
  vm_compute. reflexivity.
Defined.

(** X8: whenever the Azure Key Vault accessor returns, the result holds the
    endpoint, a string, then the client ID as the source has it, a string
    when [include_client_id] is set, and a third component, the client
    secret, exactly when both flags are set. *)
Theorem X8_key_vault_result_shape
    (config : gmap string (option string)) (c s : bool) (t : value) :
  azure_key_vault_settings_from_dot_env config c s = Ok t →
  ∃ endpoint,
    get config "AZURE_KEY_VAULT_ENDPOINT" = Some endpoint
    ∧ (c = true → is_not_None (get config "AZURE_KEY_VAULT_CLIENT_ID") = true)
    ∧ (s = true → is_not_None (get config "AZURE_KEY_VAULT_CLIENT_SECRET") = true)
    ∧ t = VTuple
            ([VStr endpoint; of_opt (get config "AZURE_KEY_VAULT_CLIENT_ID")]
             ++ (if c && s
                 then [of_opt (get config "AZURE_KEY_VAULT_CLIENT_SECRET")]
                 else [])).
Proof.
  unfold azure_key_vault_settings_from_dot_env.
  destruct (get config "AZURE_KEY_VAULT_ENDPOINT") as [endpoint|];
    [| discriminate].
  destruct (get config "AZURE_KEY_VAULT_CLIENT_ID") as [client_id|];
    destruct (get config "AZURE_KEY_VAULT_CLIENT_SECRET") as [secret|];
    destruct c, s; simpl; try discriminate;
    intros [= <-]; exists endpoint; repeat split; auto; discriminate.
Qed.

Lemma X8_key_vault_result_shape_witness :
  ∃ endpoint,
    get key_vault_sample "AZURE_KEY_VAULT_ENDPOINT" = Some endpoint
    ∧ (true = true →
       is_not_None (get key_vault_sample "AZURE_KEY_VAULT_CLIENT_ID") = true)
    ∧ (true = true →
       is_not_None (get key_vault_sample "AZURE_KEY_VAULT_CLIENT_SECRET") = true)
    ∧ VTuple [VStr "https://vault"; VStr "id"; VStr "s3cret"]
      = VTuple
          ([VStr endpoint; of_opt (get key_vault_sample "AZURE_KEY_VAULT_CLIENT_ID")]
           ++ [of_opt (get key_vault_sample "AZURE_KEY_VAULT_CLIENT_SECRET")]).
Proof.
  apply (X8_key_vault_result_shape key_vault_sample true true).
  vm_compute. reflexivity.
Defined.

(** ** The mapping variants *)

(** X9: the dict accessor of Azure Key Vault raises what the tuple accessor
    raises with both flags set, and where that one returns the endpoint, the
    client ID and the client secret, all three strings, it returns them under
    ["endpoint"], ["client_id"] and ["client_secret"]. *)
Theorem X9_key_vault_as_dict_projects (config : gmap string (option string)) :
  (∀ e, azure_key_vault_settings_from_dot_env config true true = Raise e →
        azure_key_vault_settings_from_dot_env_as_dict config = Raise e)
  ∧ (∀ t, azure_key_vault_settings_from_dot_env config true true = Ok t →
          ∃ endpoint client_id client_secret,
            t = VTuple [VStr endpoint; VStr client_id; VStr client_secret]
            ∧ azure_key_vault_settings_from_dot_env_as_dict config
              = Ok (VDict [("endpoint", VStr endpoint);
                           ("client_id", VStr client_id);
                           ("client_secret", VStr client_secret)])).
Proof.
  unfold azure_key_vault_settings_from_dot_env_as_dict,
    azure_key_vault_settings_from_dot_env.
  destruct (get config "AZURE_KEY_VAULT_ENDPOINT") as [endpoint|];
    destruct (get config "AZURE_KEY_VAULT_CLIENT_ID") as [client_id|];
    destruct (get config "AZURE_KEY_VAULT_CLIENT_SECRET") as [secret|];
    simpl; (split; [intros e [= <-] || discriminate; reflexivity |]);
    try discriminate.
  intros t [= <-]. exists endpoint, client_id, secret. split; reflexivity.
Qed.

Lemma X9_key_vault_as_dict_projects_witness :
  azure_key_vault_settings_from_dot_env_as_dict ∅
  = Raise (AssertionError "Azure Key Vault endpoint not found in .env file")
  ∧ ∃ endpoint client_id client_secret,
      VTuple [VStr "https://vault"; VStr "id"; VStr "s3cret"]
      = VTuple [VStr endpoint; VStr client_id; VStr client_secret]
      ∧ azure_key_vault_settings_from_dot_env_as_dict key_vault_sample
        = Ok (VDict [("endpoint", VStr endpoint);
                     ("client_id", VStr client_id);
                     ("client_secret", VStr client_secret)]).
Proof.
  split.
  - apply (proj1 (X9_key_vault_as_dict_projects ∅)). reflexivity.
  - apply (proj2 (X9_key_vault_as_dict_projects key_vault_sample)).
    vm_compute. reflexivity.
Defined.

(** X10: the dict accessor of the Booking sample raises what the tuple
    accessor raises, and where that one returns the client ID, the tenant ID
    and the client secret, all three non-empty strings, it returns them under
    ["client_id"], ["tenant_id"] and ["client_secret"]. *)
Theorem X10_booking_as_dict_projects (config : gmap string (option string)) :
  (∀ e, booking_sample_settings_from_dot_env config = Raise e →
        booking_sample_settings_from_dot_env_as_dict config = Raise e)
  ∧ (∀ t, booking_sample_settings_from_dot_env config = Ok t →
          ∃ client_id tenant_id client_secret,
            client_id ≠ "" ∧ tenant_id ≠ "" ∧ client_secret ≠ ""
            ∧ t = VTuple [VStr client_id; VStr tenant_id; VStr client_secret]
            ∧ booking_sample_settings_from_dot_env_as_dict config
              = Ok (VDict [("client_id", VStr client_id);
                           ("tenant_id", VStr tenant_id);
                           ("client_secret", VStr client_secret)])).
Proof.
  unfold booking_sample_settings_from_dot_env_as_dict,
    booking_sample_settings_from_dot_env.
  destruct (get config "BOOKING_SAMPLE_CLIENT_ID") as [[|c1 s1]|];
    destruct (get config "BOOKING_SAMPLE_TENANT_ID") as [[|c2 s2]|];
    destruct (get config "BOOKING_SAMPLE_CLIENT_SECRET") as [[|c3 s3]|];
    simpl; (split; [intros e [= <-] || discriminate; reflexivity |]);
    try discriminate.
  intros t [= <-]. exists (String c1 s1), (String c2 s2), (String c3 s3).
  repeat split; discriminate.
Qed.

Lemma X10_booking_as_dict_projects_witness :
  booking_sample_settings_from_dot_env_as_dict ∅
  = Raise (AssertionError "Booking Sample Client ID not found in .env file")
  ∧ ∃ client_id tenant_id client_secret,
      client_id ≠ "" ∧ tenant_id ≠ "" ∧ client_secret ≠ ""
      ∧ VTuple [VStr "c"; VStr "t"; VStr "s"]
        = VTuple [VStr client_id; VStr tenant_id; VStr client_secret]
      ∧ booking_sample_settings_from_dot_env_as_dict booking_sample
        = Ok (VDict [("client_id", VStr client_id);
                     ("tenant_id", VStr tenant_id);
                     ("client_secret", VStr client_secret)]).
Proof.
  split.
  - apply (proj1 (X10_booking_as_dict_projects ∅)). reflexivity.
  - apply (proj2 (X10_booking_as_dict_projects booking_sample)).
    vm_compute. reflexivity.
Defined.

Lemma azure_openai_returns_four
    (config : gmap string (option string)) (d : bool) (t : value) :
  azure_openai_settings_from_dot_env config d true = Ok t →
  ∃ deployment api_key endpoint api_version,
    t = VTuple [deployment; api_key; endpoint; api_version].
Proof.
  unfold azure_openai_settings_from_dot_env.
  destruct d;
    destruct (get config "AZURE_OPENAI_DEPLOYMENT_NAME");
    destruct (get config "AZURE_OPENAI_API_VERSION");
    destruct (get config "AZURE_OPENAI_API_KEY") as [[|? ?]|];
    destruct (get config "AZURE_OPENAI_ENDPOINT") as [[|? ?]|];
    simpl; try discriminate; intros [= <-]; eauto.
Qed.

(** X11: called with [include_api_version=True], the dict accessor of Azure
    OpenAI raises what the tuple accessor raises, and where that one returns
    it returns the API key, the endpoint and the API version of the tuple
    under ["api_key"], ["endpoint"] and ["api_version"], and the deployment
    name under ["deployment_name"] exactly when [include_deployment] is
    set. *)
Theorem X11_azure_openai_as_dict_projects
    (config : gmap string (option string)) (d : bool) :
  (∀ e, azure_openai_settings_from_dot_env config d true = Raise e →
        azure_openai_settings_from_dot_env_as_dict config d true = Raise e)
  ∧ (∀ t, azure_openai_settings_from_dot_env config d true = Ok t →
          ∃ deployment api_key endpoint api_version,
            t = VTuple [deployment; api_key; endpoint; api_version]
            ∧ azure_openai_settings_from_dot_env_as_dict config d true
              = Ok (VDict ([("api_key", api_key); ("endpoint", endpoint)]
                           ++ optional_field d "deployment_name" deployment
                           ++ [("api_version", api_version)]))).
Proof.
  split.
  - intros e He. unfold azure_openai_settings_from_dot_env_as_dict.
    now rewrite He.
  - intros t Ht.
    destruct (azure_openai_returns_four config d t Ht)
      as (dep & k & e & ver & ->).
    exists dep, k, e, ver. split; [reflexivity |].
    now apply as_dict_with_api_version.
Qed.

Lemma X11_azure_openai_as_dict_projects_witness :
  azure_openai_settings_from_dot_env_as_dict azure_openai_no_deployment true true
  = Raise (AssertionError "Azure OpenAI deployment name not found in .env file")
  ∧ ∃ deployment api_key endpoint api_version,
      VTuple [VStr ""; VStr "k"; VStr "https://x"; VStr "2024-02-01"]
      = VTuple [deployment; api_key; endpoint; api_version]
      ∧ azure_openai_settings_from_dot_env_as_dict azure_openai_with_version
          false true
        = Ok (VDict ([("api_key", api_key); ("endpoint", endpoint)]
                     ++ optional_field false "deployment_name" deployment
                     ++ [("api_version", api_version)])).
Proof.
  split.
  - apply (proj1 (X11_azure_openai_as_dict_projects azure_openai_no_deployment true)).
    vm_compute. reflexivity.
  - apply (proj2 (X11_azure_openai_as_dict_projects azure_openai_with_version false)).
    vm_compute. reflexivity.
Defined.

(** X12: called with [include_api_version=False], its default, the dict
    accessor of Azure OpenAI returns on no source: it raises the
    [AssertionError] of the tuple accessor where that one raises, and a
    [ValueError] for the unpacking of three values into four targets where
    that one returns. *)
Theorem X12_azure_openai_as_dict_never_returns
    (config : gmap string (option string)) (d : bool) :
  (∀ v, azure_openai_settings_from_dot_env_as_dict config d false ≠ Ok v)
  ∧ (∀ e, azure_openai_settings_from_dot_env config d false = Raise e →
          azure_openai_settings_from_dot_env_as_dict config d false = Raise e)
  ∧ (∀ t, azure_openai_settings_from_dot_env config d false = Ok t →
          azure_openai_settings_from_dot_env_as_dict config d false
          = Raise (ValueError "not enough values to unpack (expected 4, got 3)")).
Proof.
  assert (Hraise : ∀ e,
            azure_openai_settings_from_dot_env config d false = Raise e →
            azure_openai_settings_from_dot_env_as_dict config d false = Raise e).
  { intros e He. unfold azure_openai_settings_from_dot_env_as_dict.
    now rewrite He. }
  split; [| split; [exact Hraise | apply as_dict_without_api_version]].
  intros v Hv.
  destruct (azure_openai_settings_from_dot_env config d false) as [t|e] eqn:E.
  - rewrite (as_dict_without_api_version config d t E) in Hv. discriminate.
  - rewrite (Hraise e eq_refl) in Hv. discriminate.
Qed.

Lemma X12_azure_openai_as_dict_never_returns_witness :
  azure_openai_settings_from_dot_env_as_dict azure_openai_no_deployment true false
  = Raise (AssertionError "Azure OpenAI deployment name not found in .env file")
  ∧ azure_openai_settings_from_dot_env_as_dict azure_openai_no_deployment false false
    = Raise (ValueError "not enough values to unpack (expected 4, got 3)").
Proof.
  split.
  - apply (proj1 (proj2 (X12_azure_openai_as_dict_never_returns
                           azure_openai_no_deployment true))).
    vm_compute. reflexivity.
  - apply (proj2 (proj2 (X12_azure_openai_as_dict_never_returns
                           azure_openai_no_deployment false))
             (VTuple [VStr ""; VStr "k"; VStr "https://x"])).
    vm_compute. reflexivity.
Defined.

(** ** The line scan *)

Lemma scan_step_filter (k : string) (P : string → Prop) `{!∀ l, Decision (P l)}
    (lines : list string) (acc : option string) :
  (∀ l, Str.startswith l k = true → P l) →
  fold_left (scan_step k) (filter P lines) acc = fold_left (scan_step k) lines acc.
Proof.
  intros HP. revert acc. induction lines as [|l lines IH]; intros acc;
    [reflexivity |].
  rewrite filter_cons. destruct (decide (P l)) as [Hl|Hl]; simpl.
  - apply IH.
  - rewrite IH. f_equal. unfold scan_step.
    destruct (Str.startswith l k) eqn:E; [| reflexivity].
    exfalso. apply Hl, HP, E.
Qed.

Lemma scanned_key (a : accessor) (k l : string) :
  In k (map key (requirements a)) → Str.startswith l k = true →
  scanned a l = true.
Proof.
  intros Hk Hl. unfold scanned. apply existsb_exists. eauto.
Qed.

(** X13: the line scanners pass over every line that begins with none of
    their keys, such as a comment, a blank line, an assignment of another
    service or an indented assignment: the Pinecone and the AstraDB accessors
    give on a file the result, value or error, they give on the file without
    these lines. *)
Theorem X13_other_lines_passed_over (lines : list string) :
  pinecone_settings_from_dot_env (scanned_only Pinecone lines)
  = pinecone_settings_from_dot_env lines
  ∧ astradb_settings_from_dot_env (scanned_only AstraDB lines)
    = astradb_settings_from_dot_env lines.
Proof.
  unfold pinecone_settings_from_dot_env, astradb_settings_from_dot_env,
    scanned_only.
  rewrite !pinecone_loop, !astradb_loop. split.
  - rewrite !scan_step_filter
      by (intros l Hl; apply (scanned_key Pinecone _ l) in Hl;
          [exact Hl | simpl; tauto]).
    reflexivity.
  - rewrite !scan_step_filter
      by (intros l Hl; apply (scanned_key AstraDB _ l) in Hl;
          [exact Hl | simpl; tauto]).
    reflexivity.
Qed.

(** X14: the AstraDB accessor matches its four keys by prefix and lets the
    last matching line decide: where, for each key, the value parsed from
    the last line that begins with the key is non-empty, it returns these
    four values in the order application token, database ID, region,
    keyspace. *)
Theorem X14_astradb_last_lines_decide
    (lines : list string) (l_token l_id l_region l_keyspace : string) :
  last_line_of "ASTRADB_APP_TOKEN" l_token lines →
  last_line_of "ASTRADB_ID" l_id lines →
  last_line_of "ASTRADB_REGION" l_region lines →
  last_line_of "ASTRADB_KEYSPACE" l_keyspace lines →
  line_value l_token ≠ "" → line_value l_id ≠ "" →
  line_value l_region ≠ "" → line_value l_keyspace ≠ "" →
  astradb_settings_from_dot_env lines
  = Ok (VTuple [VStr (line_value l_token); VStr (line_value l_id);
                VStr (line_value l_region); VStr (line_value l_keyspace)]).
Proof.
  intros H1 H2 H3 H4 N1 N2 N3 N4.
  apply last_assigned_last_line in H1, H2, H3, H4. unfold last_assigned in *.
  unfold astradb_settings_from_dot_env. rewrite astradb_loop, H1, H2, H3, H4.
  destruct (line_value l_token); [contradiction |].
  destruct (line_value l_id); [contradiction |].
  destruct (line_value l_region); [contradiction |].
  destruct (line_value l_keyspace); [contradiction |].
  reflexivity.
Qed.

Lemma X14_astradb_last_lines_decide_witness :
  astradb_settings_from_dot_env astradb_sample
  = Ok (VTuple [VStr "AstraCS:tok=1"; VStr "db-1"; VStr "us-east1"; VStr "ks"]).
Proof.
  apply (X14_astradb_last_lines_decide astradb_sample
           (assignment "ASTRADB_APP_TOKEN" ("AstraCS:tok=1" +:+ nl))
           (assignment "ASTRADB_ID" ("db-1" +:+ nl))
           (assignment "ASTRADB_REGION" (quoted 1 1 "us-east1" nl))
           (assignment "ASTRADB_KEYSPACE" ("ks" +:+ nl))).
  - exists (firstn 1 astradb_sample), (skipn 2 astradb_sample).
    split; [reflexivity |]. split; [reflexivity | repeat constructor].
  - exists (firstn 3 astradb_sample), (skipn 4 astradb_sample).
    split; [reflexivity |]. split; [reflexivity | repeat constructor].
  - exists (firstn 5 astradb_sample), (skipn 6 astradb_sample).
    split; [reflexivity |]. split; [reflexivity | repeat constructor].
  - exists (firstn 6 astradb_sample), (skipn 7 astradb_sample).
    split; [reflexivity |]. split; [reflexivity | repeat constructor].
  - vm_compute. discriminate.
  - vm_compute. discriminate.
  - vm_compute. discriminate.
  - vm_compute. discriminate.
Defined.

Lemma split_no_sep (s : string) (sep : ascii) :
  none_of (λ c, Ascii.eqb c sep) s = true → Str.split s sep = [s].
Proof.
  induction s as [|c s IH]; simpl; [reflexivity |].
  intros H. apply andb_true_iff in H as [Hc Hs].
  apply negb_true_iff in Hc. now rewrite Hc, (IH Hs).
Qed.

Lemma line_value_no_equals (line : string) :
  none_of is_equals line = true → line_value line = "".
Proof.
  intros H. unfold line_value.
  rewrite (split_no_sep line Str.equals H). reflexivity.
Qed.

(** X15: a line without [=] has the empty value; so where the last line that
    begins with [PINECONE_API_KEY] holds no [=], the Pinecone accessor raises
    the error of the missing API key, whatever the lines before it assign. *)
Theorem X15_line_without_equals_is_empty (lines : list string) (line : string) :
  last_line_of "PINECONE_API_KEY" line lines →
  none_of is_equals line = true →
  line_value line = ""
  ∧ pinecone_settings_from_dot_env lines
    = Raise (AssertionError "Pinecone API key not found in .env file").
Proof.
  intros Hlast Hline. pose proof (line_value_no_equals line Hline) as Hv.
  split; [exact Hv |].
  apply last_assigned_last_line in Hlast. unfold last_assigned in Hlast.
  unfold pinecone_settings_from_dot_env. rewrite pinecone_loop, Hlast, Hv.
  reflexivity.
Qed.

Lemma X15_line_without_equals_is_empty_witness :
  line_value ("PINECONE_API_KEY" +:+ nl) = ""
  ∧ pinecone_settings_from_dot_env
      (assignment "PINECONE_API_KEY" ("a" +:+ nl) :: pinecone_bare_key)
    = Raise (AssertionError "Pinecone API key not found in .env file").
Proof.
  apply (X15_line_without_equals_is_empty
           (assignment "PINECONE_API_KEY" ("a" +:+ nl) :: pinecone_bare_key)
           ("PINECONE_API_KEY" +:+ nl)).
  - exists [assignment "PINECONE_API_KEY" ("a" +:+ nl);
            assignment "PINECONE_ENVIRONMENT" ("e" +:+ nl)], [].
    split; [reflexivity |]. split; [reflexivity | constructor].
  - reflexivity.
Defined.

Lemma strip_blanks (v ws1 ws2 : string) :
  first_not Str.isspace v = true → last_not Str.isspace v = true →
  all_of Str.isspace ws1 = true → all_of Str.isspace ws2 = true →
  Str.strip (ws1 +:+ v +:+ ws2) = v.
Proof.
  intros Hfirst Hlast H1 H2. unfold Str.strip, Str.strip_by.
  rewrite (StrFacts.lstrip_all_of _ _ _ H1).
  destruct v as [|c v].
  - change ("" +:+ ws2) with ws2. rewrite <- (StrFacts.append_nil_r ws2).
    rewrite (StrFacts.lstrip_all_of _ _ _ H2). reflexivity.
  - rewrite (StrFacts.lstrip_first_not Str.isspace) by exact Hfirst.
    rewrite (StrFacts.rstrip_app_all_of _ _ _ H2).
    now apply StrFacts.rstrip_last_not.
Qed.

(** X16: around a value written without quotes the scan removes the blanks:
    for every key without [=] and every value that neither begins nor ends
    with a blank or a double quote, the line of the key, [=], blanks, the
    value and blanks (the line terminator among them) yields the value, the
    blanks and the [=] inside it kept. *)
Theorem X16_blanks_around_value_removed (k v ws1 ws2 : string) :
  none_of is_equals k = true →
  first_not Str.isspace v = true → last_not Str.isspace v = true →
  no_outer_quote v = true →
  all_of Str.isspace ws1 = true → all_of Str.isspace ws2 = true →
  line_value (assignment k (ws1 +:+ v +:+ ws2)) = v.
Proof.
  intros Hk Hfirst Hlast Hq H1 H2.
  rewrite line_value_assignment by exact Hk.
  rewrite strip_blanks by assumption.
  apply andb_true_iff in Hq as [Hq1 Hq2]. unfold Str.strip_by.
  rewrite StrFacts.lstrip_first_not by exact Hq1.
  now apply StrFacts.rstrip_last_not.
Qed.

Lemma X16_blanks_around_value_removed_witness :
  line_value (assignment "PINECONE_ENVIRONMENT " (" " +:+ "us west=1" +:+ " " +:+ nl))
  = "us west=1".
Proof.
  apply (X16_blanks_around_value_removed "PINECONE_ENVIRONMENT " "us west=1"
           " " (" " +:+ nl)); reflexivity.
Defined.

(** X17: on a file no line of which begins with [PINECONE_API_KEY] (an empty
    file, a file of comments, a file whose assignments are all indented),
    the Pinecone accessor raises the error of the missing API key. *)
Theorem X17_pinecone_no_key_line (lines : list string) :
  Forall (λ l, Str.startswith l "PINECONE_API_KEY" = false) lines →
  pinecone_settings_from_dot_env lines
  = Raise (AssertionError "Pinecone API key not found in .env file").
Proof.
  intros H. apply last_assigned_none in H. unfold last_assigned in H.
  unfold pinecone_settings_from_dot_env. rewrite pinecone_loop, H. reflexivity.
Qed.

Lemma X17_pinecone_no_key_line_witness :
  pinecone_settings_from_dot_env
    [ "# PINECONE_API_KEY=a" +:+ nl;
      assignment " PINECONE_API_KEY" ("a" +:+ nl);
      assignment "PINECONE_ENVIRONMENT" ("e" +:+ nl) ]
  = Raise (AssertionError "Pinecone API key not found in .env file").
Proof. apply X17_pinecone_no_key_line. repeat constructor. Defined.

(** The lines of the AstraDB sample that the scan acts on. *)
Example scanned_only_astradb_sample :
  scanned_only AstraDB astradb_sample
  = [ assignment "ASTRADB_APP_TOKEN" ("AstraCS:tok=1" +:+ nl);
      assignment "ASTRADB_ID" ("db-1" +:+ nl);
      assignment "ASTRADB_REGION" (quoted 1 1 "us-east1" nl);
      assignment "ASTRADB_KEYSPACE" ("ks" +:+ nl) ].
Proof. vm_compute. reflexivity. Qed.
